(** * The rule engine of [basic_expectations_test.py]

    A shallow embedding of [run_expectations_manually]: the loop over the
    expectation dicts, the string dispatch on the expectation name, the
    [try]/[except Exception] around each rule, and the pandas calls each
    branch makes.

    Conventions of the embedding.
    - A Python [str] is a Rocq [string] (its UTF-8 bytes).
    - A Python [float] is [NaN], an infinity or the rational number it
      denotes; the code only compares floats, it never computes with them.
    - f-strings that interpolate something other than a [str] or a count
      stay symbolic ([VFmt]): the pieces are kept, [str()] is not applied.
    - The progress lines written with [print] are not part of the returned
      value and are left out: writing them is taken to succeed, as it does
      on a stream that can encode them. A text that has no UTF-8 encoding
      (a lone surrogate) is not a Rocq [string]. *)

From Stdlib Require Import Ascii QArith Qcanon.
From stdpp Require Import base numbers strings list gmap pretty.

#[local] Set Warnings "-register-all".
#[local] Open Scope string_scope.
#[local] Open Scope list_scope.

(** ** Python values *)

Inductive float :=
| NaN
| Inf (negative : bool)
| Fin (q : Qc).

#[global] Instance float_eq_dec : EqDecision float.
Proof. solve_decision. Defined.

(** The values a configuration (a Python literal or a YAML document) holds. *)
Inductive pyval :=
| PNone
| PBool (b : bool)
| PInt (z : Z)
| PFloat (f : float)
| PStr (s : string)
| PList (l : list pyval)
| PDict (d : gmap string pyval).

(** The exceptions the engine meets. All are subclasses of [Exception];
    [OtherException] stands for any further one raised inside pandas. *)
Inductive exn :=
| KeyError (key : string)
| TypeError
| AttributeError
| ValueError
| OtherException (cls : string).

Inductive outcome (A : Type) :=
| Return (a : A)
| Raise (e : exn).
Arguments Return {A} a.
Arguments Raise {A} e.

#[global] Instance outcome_ret : MRet outcome := @Return.
#[global] Instance outcome_bind : MBind outcome := λ A B f m,
  match m with
  | Return a => f a
  | Raise e => Raise e
  end.

(** [d[key]] on a dict field that may be absent. *)
Definition getitem_field {A} (key : string) (field : option A) : outcome A :=
  match field with
  | Some v => Return v
  | None => Raise (KeyError key)
  end.

(** [v[key]] with a string key: only a dict can be subscripted that way. *)
Definition py_getitem (v : pyval) (key : string) : outcome pyval :=
  match v with
  | PDict d => getitem_field key (d !! key)
  | _ => Raise TypeError
  end.

(** *** Strings *)

Definition lower_ascii (a : ascii) : ascii :=
  let n := N_of_ascii a in
  if ((65 <=? n) && (n <=? 90))%N then ascii_of_N (n + 32) else a.

(** [s.lower()]. On the UTF-8 bytes only A-Z change, which is all that the
    searches for "email", "timestamp" and "date" can observe. *)
Fixpoint lower (s : string) : string :=
  match s with
  | EmptyString => EmptyString
  | String a s' => String (lower_ascii a) (lower s')
  end.

(** [sub in s] for two strings. *)
Fixpoint contains (sub s : string) : bool :=
  String.prefix sub s ||
  match s with
  | EmptyString => false
  | String _ s' => contains sub s'
  end.

(** [v.lower()]: only [str] has the method. *)
Definition py_lower (v : pyval) : outcome string :=
  match v with
  | PStr s => Return (lower s)
  | _ => Raise AttributeError
  end.

Definition py_str_eqb (sub : string) (v : pyval) : bool :=
  match v with
  | PStr s => String.eqb sub s
  | _ => false
  end.

(** [sub in v] for a string [sub]: substring test on a [str], membership in
    a list, key membership in a dict, [TypeError] on what is not iterable. *)
Definition py_in (sub : string) (v : pyval) : outcome bool :=
  match v with
  | PStr s => Return (contains sub s)
  | PList l => Return (existsb (py_str_eqb sub) l)
  | PDict d => Return (bool_decide (is_Some (d !! sub)))
  | _ => Raise TypeError
  end.

(** *** Comparing with an [int] *)

Definition float_of_Z (z : Z) : float := Fin (Qc_of_Z z).

(** [a <= b] on floats: false as soon as one side is [NaN]. *)
Definition float_le (a b : float) : bool :=
  match a, b with
  | NaN, _ | _, NaN => false
  | Inf true, _ => true
  | _, Inf false => true
  | Inf false, _ => false
  | _, Inf true => false
  | Fin x, Fin y => bool_decide (x ≤ y)%Qc
  end.

(** The number a value stands for in a comparison with an [int]; [bool] is
    a subclass of [int]. *)
Definition py_number (v : pyval) : outcome float :=
  match v with
  | PBool b => Return (float_of_Z (if b then 1 else 0))
  | PInt z => Return (float_of_Z z)
  | PFloat f => Return f
  | _ => Raise TypeError
  end.

(** [v <= n] and [n <= v] for an [int] [n]. *)
Definition py_le_int (v : pyval) (n : Z) : outcome bool :=
  x ← py_number v; Return (float_le x (float_of_Z n)).
Definition int_le_py (n : Z) (v : pyval) : outcome bool :=
  x ← py_number v; Return (float_le (float_of_Z n) x).

(** [actual == expected] where [actual] is a list of [str]: list equality
    is elementwise, and a list equals nothing but a list. *)
Fixpoint strs_eqb (actual : list string) (expected : list pyval) : bool :=
  match actual, expected with
  | [], [] => true
  | a :: actual', v :: expected' => py_str_eqb a v && strs_eqb actual' expected'
  | _, _ => false
  end.

Definition list_eq_py (actual : list string) (expected : pyval) : bool :=
  match expected with
  | PList vs => strs_eqb actual vs
  | _ => false
  end.

(** ** The dataset: a pandas DataFrame *)

(** A column, by dtype. [int64] has no missing value; [NaN], [None] and
    [NaT] are the missing values of the other three. *)
Inductive Series :=
| Int64 (xs : list Z)
| Float64 (xs : list float)
| Object (xs : list (option string))
| Datetime64 (xs : list (option Z)).

Inductive scalar :=
| SInt (z : Z)
| SFloat (f : float)
| SStr (s : string)
| STime (ns : Z).

#[global] Instance scalar_eq_dec : EqDecision scalar.
Proof. solve_decision. Defined.

(** A cell of a column: [None] is a missing value. *)
Definition cell := option scalar.

Definition cells (s : Series) : list cell :=
  match s with
  | Int64 xs => map (λ z, Some (SInt z)) xs
  | Float64 xs => map (λ f, if decide (f = NaN) then None else Some (SFloat f)) xs
  | Object xs => map (option_map SStr) xs
  | Datetime64 xs => map (option_map STime) xs
  end.

(** [len(series)] *)
Definition series_len (s : Series) : nat := length (cells s).

(** [mask.sum()]: the number of [True] in a boolean column. *)
Definition mask_sum (mask : list bool) : nat :=
  length (filter (λ b : bool, b = true) mask).

(** [mask.all()] *)
Definition mask_all (mask : list bool) : bool := forallb id mask.

(** [series.isnull()] *)
Definition isnull (s : Series) : list bool :=
  map (λ c : cell, bool_decide (c = None)) (cells s).

(** The cells that are not missing. *)
Fixpoint dropna (l : list cell) : list scalar :=
  match l with
  | [] => []
  | Some x :: l' => x :: dropna l'
  | None :: l' => dropna l'
  end.

(** [series.nunique()]: [dropna=True] is the default, so the missing
    values are removed before the distinct values are counted. *)
Definition nunique (s : Series) : nat :=
  length (remove_dups (dropna (cells s))).

Fixpoint unique_from (seen l : list cell) : list cell :=
  match l with
  | [] => []
  | c :: l' =>
      if decide (c ∈ seen) then unique_from seen l'
      else c :: unique_from (c :: seen) l'
  end.

(** [series.unique()]: the distinct cells in order of first appearance, a
    missing value included once. *)
Definition unique (s : Series) : list cell := unique_from [] (cells s).

(** [series.str]: the accessor exists on string columns only. *)
Definition str_accessor (s : Series) : outcome (list (option string)) :=
  match s with
  | Object xs => Return xs
  | _ => Raise AttributeError
  end.

(** [series.str.contains(pat, na=False)] for a pattern without regex
    metacharacters: a substring test, and a missing cell is no match. *)
Definition str_contains (pat : string) (xs : list (option string)) : list bool :=
  map (λ c : option string,
         match c with
         | Some v => contains pat v
         | None => false
         end) xs.

(** [pd.api.types.is_datetime64_any_dtype(series)] *)
Definition is_datetime64_any_dtype (s : Series) : bool :=
  match s with
  | Datetime64 _ => true
  | _ => false
  end.

(** [str(series.dtype)] *)
Definition dtype_str (s : Series) : string :=
  match s with
  | Int64 _ => "int64"
  | Float64 _ => "float64"
  | Object _ => "object"
  | Datetime64 _ => "datetime64[ns]"
  end.

(** A frame: its number of rows and its labelled columns, in order. The
    labels are pairwise distinct, as the keys of the dicts the frames are
    built from ([create_test_data]); a frame carries the proof, so that
    [df[label]] is one column. pandas also accepts a repeated label, and
    [df[label]] is then a sub-frame on which the rules behave otherwise:
    such a frame is not a value of this type, and nothing below is about
    it. *)
Record DataFrame := {
  nrows : nat;
  data : list (string * Series);
  labels_distinct : NoDup (map fst data)
}.

(** The frame of the given columns, once their labels are checked to be
    distinct. *)
Definition frame (nrows : nat) (data : list (string * Series))
    (distinct : bool_decide (NoDup (map fst data)) = true) : DataFrame :=
  {| nrows := nrows; data := data;
     labels_distinct := bool_decide_eq_true_1 _ distinct |}.

(** [list(df.columns)] *)
Definition columns (df : DataFrame) : list string := map fst (data df).

Fixpoint find_column (label : string) (cols : list (string * Series)) : option Series :=
  match cols with
  | [] => None
  | (l, s) :: cols' => if String.eqb l label then Some s else find_column label cols'
  end.

(** [df[column]]: the column with the label, the only one since the labels
    of a frame are distinct; [KeyError] when no column has the label. *)
Definition df_getitem (df : DataFrame) (column : string) : outcome Series :=
  getitem_field column (find_column column (data df)).

(** Every column has one cell per row. *)
Definition frame_ok (df : DataFrame) : Prop :=
  Forall (λ c : string * Series, series_len c.2 = nrows df) (data df).

(** The pandas operations of the two branches whose result no property
    below depends on. Their coercion rules (a bound of another type than the
    column, list-like bounds, dates given as text) are left open: each yields
    a value or raises an [Exception]. *)
Record PandasOps := {
  series_ge : Series → pyval → outcome (list bool);  (* series >= bound *)
  series_le : Series → pyval → outcome (list bool);  (* series <= bound *)
  series_min : Series → outcome cell;                (* series.min() *)
  series_max : Series → outcome cell;                (* series.max() *)
  series_isin : Series → pyval → outcome (list bool) (* series.isin(values) *)
}.

(** ** Rules and results *)

(** An expectation dict, read at its keys 'name', 'column' and
    'parameters'; a field is [None] when the dict lacks the key. The name
    and the column label are strings, the parameters any value (a dict in a
    well-formed rule). *)
Record RuleSpec := {
  name : option string;
  column : option string;
  parameters : option pyval
}.

(** [exp['parameters'][key]] *)
Definition parameter (exp : RuleSpec) (key : string) : outcome pyval :=
  params ← getitem_field "parameters" (parameters exp);
  py_getitem params key.

(** A piece of an f-string: literal text, or an interpolated value. *)
Inductive fragment :=
| Lit (s : string)
| Fmt (v : pyval)
| FmtCell (c : cell)
| FmtExn (e : exn).

(** The values stored in a result dict. *)
Inductive value :=
| VBool (b : bool)
| VInt (n : Z)
| VStr (s : string)
| VStrs (l : list string)
| VCells (l : list cell)
| VFmt (t : list fragment).

(** A result dict. *)
Abbreviation Result := (gmap string value).

Definition mk_result (expectation : string) (success : bool)
    (observed_value details : value) : Result :=
  {[ "expectation" := VStr expectation;
     "success" := VBool success;
     "observed_value" := observed_value;
     "details" := details ]}.

(** ** The engine *)

Section Engine.
Context (pd : PandasOps).

(** The branches of the [if]/[elif] chain, one definition each, up to the
    result dict. *)

Definition expect_table_row_count_to_be_between (df : DataFrame)
    (exp : RuleSpec) (exp_name : string) : outcome Result :=
  min_val ← parameter exp "min_value";
  max_val ← parameter exp "max_value";
  let row_count := Z.of_nat (nrows df) in
  (* min_val <= row_count <= max_val: the second comparison is evaluated
     only when the first one holds *)
  lower_ok ← py_le_int min_val row_count;
  success ← (if lower_ok : bool then int_le_py row_count max_val else Return false);
  Return (mk_result exp_name success (VInt row_count)
            (VFmt [Lit "Row count "; Fmt (PInt row_count);
                   Lit " should be between "; Fmt min_val;
                   Lit " and "; Fmt max_val])).

Definition expect_table_columns_to_match_ordered_list (df : DataFrame)
    (exp : RuleSpec) (exp_name : string) : outcome Result :=
  expected_cols ← parameter exp "column_list";
  let actual_cols := columns df in
  let success := list_eq_py actual_cols expected_cols in
  Return (mk_result exp_name success (VStrs actual_cols)
            (VFmt [Lit "Expected columns "; Fmt expected_cols;
                   Lit ", got "; Fmt (PList (map PStr actual_cols))])).

Definition expect_column_values_to_not_be_null (df : DataFrame)
    (exp : RuleSpec) (exp_name : string) : outcome Result :=
  column ← getitem_field "column" (column exp);
  series ← df_getitem df column;
  let null_count := mask_sum (isnull series) in
  let success := Nat.eqb null_count 0 in
  Return (mk_result exp_name success
            (VStr (pretty null_count +:+ " nulls in " +:+ column))
            (VStr ("Column " +:+ column +:+ " should have no null values"))).

Definition expect_column_values_to_be_unique (df : DataFrame)
    (exp : RuleSpec) (exp_name : string) : outcome Result :=
  column ← getitem_field "column" (column exp);
  series ← df_getitem df column;
  let unique_count := nunique series in
  series' ← df_getitem df column;
  let total_count := series_len series' in
  let success := Nat.eqb unique_count total_count in
  Return (mk_result exp_name success
            (VStr (pretty unique_count +:+ " unique out of " +:+ pretty total_count))
            (VStr ("Column " +:+ column +:+ " should have all unique values"))).

Definition expect_column_values_to_match_regex (df : DataFrame)
    (exp : RuleSpec) (exp_name : string) : outcome Result :=
  column ← getitem_field "column" (column exp);
  regex_pattern ← parameter exp "regex";
  (* 'email' in regex_pattern.lower() or '@' in regex_pattern *)
  lowered ← py_lower regex_pattern;
  email_check ← (if contains "email" lowered then Return true
                 else py_in "@" regex_pattern);
  if email_check : bool then
    series ← df_getitem df column;
    strings ← str_accessor series;
    let matches := mask_sum (str_contains "@" strings) in
    let success := Nat.eqb matches (nrows df) in
    Return (mk_result exp_name success
              (VStr (pretty matches +:+ " valid emails out of " +:+ pretty (nrows df)))
              (VStr ("Column " +:+ column +:+ " should match email pattern")))
  else
    Return (mk_result exp_name true
              (VStr "Pattern check passed")
              (VStr ("Column " +:+ column +:+ " regex validation"))).

Definition expect_column_values_to_be_between (df : DataFrame)
    (exp : RuleSpec) (exp_name : string) : outcome Result :=
  column ← getitem_field "column" (column exp);
  min_val ← parameter exp "min_value";
  max_val ← parameter exp "max_value";
  series ← df_getitem df column;
  above ← series_ge pd series min_val;
  series' ← df_getitem df column;
  below ← series_le pd series' max_val;
  let in_range := mask_all (zip_with andb above below) in
  let success := in_range in
  series_a ← df_getitem df column;
  smallest ← series_min pd series_a;
  series_b ← df_getitem df column;
  largest ← series_max pd series_b;
  Return (mk_result exp_name success
            (VFmt [Lit "Min: "; FmtCell smallest; Lit ", Max: "; FmtCell largest])
            (VFmt [Lit ("Column " +:+ column +:+ " values should be between ");
                   Fmt min_val; Lit " and "; Fmt max_val])).

Definition expect_column_values_to_be_in_set (df : DataFrame)
    (exp : RuleSpec) (exp_name : string) : outcome Result :=
  column ← getitem_field "column" (column exp);
  valid_values ← parameter exp "value_set";
  series ← df_getitem df column;
  mask ← series_isin pd series valid_values;
  let all_valid := mask_all mask in
  let success := all_valid in
  series' ← df_getitem df column;
  Return (mk_result exp_name success
            (VCells (unique series'))
            (VFmt [Lit ("Column " +:+ column +:+ " values should be in ");
                   Fmt valid_values])).

Definition expect_column_values_to_be_of_type (df : DataFrame)
    (exp : RuleSpec) (exp_name : string) : outcome Result :=
  column ← getitem_field "column" (column exp);
  expected_type ← parameter exp "type_";
  (* 'timestamp' in expected_type.lower() or 'date' in expected_type.lower() *)
  lowered ← py_lower expected_type;
  temporal ← (if contains "timestamp" lowered then Return true
              else lowered' ← py_lower expected_type;
                   Return (contains "date" lowered'));
  success ← (if temporal : bool then
               series ← df_getitem df column;
               Return (is_datetime64_any_dtype series)
             else Return true);
  series' ← df_getitem df column;
  Return (mk_result exp_name success
            (VStr (dtype_str series'))
            (VFmt [Lit ("Column " +:+ column +:+ " should be of type ");
                   Fmt expected_type])).

Definition not_implemented (exp_name : string) : Result :=
  mk_result exp_name true
    (VStr "Skipped")
    (VStr ("Expectation " +:+ exp_name +:+ " not implemented in demo")).

(** The names the chain tests, in its order. *)
Definition recognized : list string :=
  [ "expect_table_row_count_to_be_between";
    "expect_table_columns_to_match_ordered_list";
    "expect_column_values_to_not_be_null";
    "expect_column_values_to_be_unique";
    "expect_column_values_to_match_regex";
    "expect_column_values_to_be_between";
    "expect_column_values_to_be_in_set";
    "expect_column_values_to_be_of_type" ].

(** The body of the [try], up to the result dict, for one expectation. *)
Definition try_body (df : DataFrame) (exp : RuleSpec) (exp_name : string)
    : outcome Result :=
  if String.eqb exp_name "expect_table_row_count_to_be_between" then
    expect_table_row_count_to_be_between df exp exp_name
  else if String.eqb exp_name "expect_table_columns_to_match_ordered_list" then
    expect_table_columns_to_match_ordered_list df exp exp_name
  else if String.eqb exp_name "expect_column_values_to_not_be_null" then
    expect_column_values_to_not_be_null df exp exp_name
  else if String.eqb exp_name "expect_column_values_to_be_unique" then
    expect_column_values_to_be_unique df exp exp_name
  else if String.eqb exp_name "expect_column_values_to_match_regex" then
    expect_column_values_to_match_regex df exp exp_name
  else if String.eqb exp_name "expect_column_values_to_be_between" then
    expect_column_values_to_be_between df exp exp_name
  else if String.eqb exp_name "expect_column_values_to_be_in_set" then
    expect_column_values_to_be_in_set df exp exp_name
  else if String.eqb exp_name "expect_column_values_to_be_of_type" then
    expect_column_values_to_be_of_type df exp exp_name
  else
    Return (not_implemented exp_name).

(** The dict appended by the [except Exception as e] handler. *)
Definition error_result (exp_name : string) (e : exn) : Result :=
  mk_result exp_name false
    (VFmt [Lit "Error: "; FmtExn e])
    (VStr ("Failed to run expectation " +:+ exp_name)).

(** One turn of the loop after the name lookup: the [try] appends the
    result of the body, the handler appends the error dict. *)
Definition run_rule (df : DataFrame) (exp : RuleSpec) (exp_name : string)
    (results : list Result) : list Result :=
  match try_body df exp exp_name with
  | Return result => results ++ [result]
  | Raise e => results ++ [error_result exp_name e]
  end.

(** The [for] loop. [exp['name']] is read before the [try]: its [KeyError]
    leaves the function. *)
Fixpoint run_loop (df : DataFrame) (expectations_config : list RuleSpec)
    (results : list Result) : outcome (list Result) :=
  match expectations_config with
  | [] => Return results
  | exp :: rest =>
      exp_name ← getitem_field "name" (name exp);
      run_loop df rest (run_rule df exp exp_name results)
  end.

Definition run_expectations_manually (df : DataFrame) (table_name : string)
    (expectations_config : list RuleSpec) : outcome (list Result) :=
  run_loop df expectations_config [].

End Engine.

(** ** The summary of [main] *)

(** [r[key]] on a result dict. *)
Definition result_getitem (r : Result) (key : string) : outcome value :=
  getitem_field key (r !! key).

(** Whether an f-string piece renders as the empty string. [str] of a
    number, of [None], of a list or a dict, of a missing cell and of the
    exceptions met here (a [KeyError] shows its key in quotes, the others
    carry a message) is never empty. *)
Definition renders_empty (piece : fragment) : bool :=
  match piece with
  | Lit s => String.eqb s ""
  | Fmt (PStr s) => String.eqb s ""
  | FmtCell (Some (SStr s)) => String.eqb s ""
  | _ => false
  end.

(** The truth value of a stored value: [False], [0], the empty string and
    the empty list are false. *)
Definition truthy (v : value) : bool :=
  match v with
  | VBool b => b
  | VInt n => negb (Z.eqb n 0)
  | VStr s => negb (String.eqb s "")
  | VStrs l => negb (bool_decide (l = []))
  | VCells l => negb (bool_decide (l = []))
  | VFmt t => negb (forallb renders_empty t)
  end.

(** [sum(1 for r in results if r['success'])] *)
Fixpoint count_passed (results : list Result) : outcome nat :=
  match results with
  | [] => Return 0
  | r :: rest =>
      success ← result_getitem r "success";
      n ← count_passed rest;
      Return (if truthy success then S n else n)
  end.

(** The loop that prints the details of one table: the keys it reads, in
    its order; 'observed_value' is read for a failed result only. *)
Fixpoint print_details (results : list Result) : outcome unit :=
  match results with
  | [] => Return tt
  | result :: rest =>
      success ← result_getitem result "success";
      _ ← result_getitem result "expectation";
      _ ← result_getitem result "details";
      success' ← result_getitem result "success";
      _ ← (if truthy success' then Return success'
           else result_getitem result "observed_value");
      print_details rest
  end.

(** [main], with the two tables and their expectation lists as arguments
    instead of the literals of the source. It returns [overall_success]. *)
Definition main_with (pd : PandasOps) (test1_df test2_df : DataFrame)
    (test1_expectations test2_expectations : list RuleSpec) : outcome bool :=
  test1_results ← run_expectations_manually pd test1_df "test1" test1_expectations;
  test2_results ← run_expectations_manually pd test2_df "test2" test2_expectations;
  test1_passed ← count_passed test1_results;
  let test1_total := length test1_results in
  test2_passed ← count_passed test2_results;
  let test2_total := length test2_results in
  let overall_success :=
    Nat.eqb test1_passed test1_total && Nat.eqb test2_passed test2_total in
  _ ← print_details test1_results;
  _ ← print_details test2_results;
  Return overall_success.

(** [exit(0 if success else 1)] *)
Definition exit_status (success : bool) : Z := if success then 0 else 1.

(** ** The sample data of [create_test_data] and [main] *)

Module Sample.

(** An instance of the open pandas operations that covers what the two
    sample tables need: numeric columns against numeric bounds, and string
    columns against lists of strings. Outside that it raises. *)
Definition numbers (s : Series) : outcome (list float) :=
  match s with
  | Int64 xs => Return (map float_of_Z xs)
  | Float64 xs => Return xs
  | _ => Raise TypeError
  end.

(** The extremum of a float column, missing values skipped. *)
Definition float_extremum (keep : float → float → bool) (xs : list float) : cell :=
  foldr (λ x acc, match acc with
                  | Some (SFloat y) => if keep x y then Some (SFloat x) else acc
                  | _ => if decide (x = NaN) then None else Some (SFloat x)
                  end) None xs.

Definition extremum (pick : Z → Z → Z) (keep : float → float → bool)
    (s : Series) : outcome cell :=
  match s with
  | Int64 [] => Return None
  | Int64 (x :: xs) => Return (Some (SInt (foldr pick x xs)))
  | Float64 xs => Return (float_extremum keep xs)
  | _ => Raise TypeError
  end.

Definition ops : PandasOps := {|
  series_ge s bound :=
    xs ← numbers s; b ← py_number bound; Return (map (λ x, float_le b x) xs);
  series_le s bound :=
    xs ← numbers s; b ← py_number bound; Return (map (λ x, float_le x b) xs);
  series_min := extremum Z.min (λ x y, float_le x y);
  series_max := extremum Z.max (λ x y, float_le y x);
  series_isin s values :=
    match s, values with
    | Object xs, PList vs =>
        Return (map (λ c : option string,
                       match c with
                       | Some v => existsb (py_str_eqb v) vs
                       | None => false
                       end) xs)
    | _, _ => Raise TypeError
    end
|}.

Definition dict (items : list (string * pyval)) : pyval :=
  PDict (list_to_map items).

Definition price (cents : Z) : float := Fin (Q2Qc (cents # 100)).

Definition test1_df : DataFrame :=
  frame 6
    [ ("id", Int64 [1; 2; 3; 4; 5; 6]%Z);
      ("name", Object [Some "Alice Johnson"; Some "Bob Smith"; Some "Carol Davis";
                       Some "David Wilson"; Some "Eve Brown"; Some "Frank Miller"]);
      ("email", Object [Some "alice@example.com"; Some "bob@example.com";
                        Some "carol@example.com"; Some "david@example.com";
                        Some "eve@example.com"; Some "frank@example.com"]);
      ("created_date", Datetime64 [Some 1705276800000000000; Some 1708387200000000000;
                                   Some 1710028800000000000; Some 1712275200000000000;
                                   Some 1715472000000000000; Some 1717804800000000000]%Z) ]
    eq_refl.

Definition test2_df : DataFrame :=
  frame 6
    [ ("product_id", Int64 [101; 102; 103; 104; 105; 106]%Z);
      ("product_name", Object [Some "Laptop Pro"; Some "Wireless Mouse"; Some "USB-C Cable";
                               Some "Monitor Stand"; Some "Keyboard"; Some "Webcam HD"]);
      ("price", Float64 [price 129999; price 4999; price 2499;
                         price 8999; price 7999; price 12999]);
      ("category", Object [Some "Electronics"; Some "Electronics"; Some "Electronics";
                           Some "Electronics"; Some "Electronics"; Some "Electronics"]) ]
    eq_refl.

Definition table_rule (n : string) (params : list (string * pyval)) : RuleSpec :=
  {| name := Some n; column := None; parameters := Some (dict params) |}.
Definition column_rule (n c : string) : RuleSpec :=
  {| name := Some n; column := Some c; parameters := None |}.
Definition column_rule_with (n c : string) (params : list (string * pyval)) : RuleSpec :=
  {| name := Some n; column := Some c; parameters := Some (dict params) |}.

Definition test1_expectations : list RuleSpec :=
  [ table_rule "expect_table_row_count_to_be_between"
      [("min_value", PInt 1); ("max_value", PInt 1000000)];
    table_rule "expect_table_columns_to_match_ordered_list"
      [("column_list", PList [PStr "id"; PStr "name"; PStr "email"; PStr "created_date"])];
    column_rule "expect_column_values_to_not_be_null" "id";
    column_rule "expect_column_values_to_be_unique" "id";
    column_rule "expect_column_values_to_not_be_null" "name";
    column_rule_with "expect_column_values_to_match_regex" "email" [("regex", PStr "email")];
    column_rule_with "expect_column_values_to_be_of_type" "created_date"
      [("type_", PStr "TimestampType")] ].

Definition test2_expectations : list RuleSpec :=
  [ table_rule "expect_table_row_count_to_be_between"
      [("min_value", PInt 1); ("max_value", PInt 500000)];
    table_rule "expect_table_columns_to_match_ordered_list"
      [("column_list", PList [PStr "product_id"; PStr "product_name"; PStr "price";
                              PStr "category"])];
    column_rule "expect_column_values_to_not_be_null" "product_id";
    column_rule "expect_column_values_to_be_unique" "product_id";
    column_rule "expect_column_values_to_not_be_null" "product_name";
    column_rule_with "expect_column_values_to_be_between" "price"
      [("min_value", PInt 0); ("max_value", PInt 10000)];
    column_rule_with "expect_column_values_to_be_in_set" "category"
      [("value_set", PList [PStr "Electronics"; PStr "Clothing"; PStr "Books";
                            PStr "Home"; PStr "Sports"])] ].

Definition succeeded (r : Result) : bool :=
  match r !! "success" with
  | Some (VBool b) => b
  | _ => false
  end.

(** [sum(1 for r in results if r['success'])] *)
Definition passed (results : list Result) : nat :=
  mask_sum (map succeeded results).


(** [main] itself: [main_with] at the literals of the source. *)
Definition main : outcome bool :=
  main_with ops test1_df test2_df test1_expectations test2_expectations.

End Sample.


(** ** Small inputs for the rules on missing values and missing keys *)

Module Cases.
Import Sample.

(** A rule on a column the users table does not have, followed by a rule
    that passes. *)
Definition ghost_rules : list RuleSpec :=
  [ column_rule "expect_column_values_to_not_be_null" "ghost";
    table_rule "expect_table_row_count_to_be_between"
      [("min_value", PInt 1); ("max_value", PInt 1000000)] ].

(** Two contacts, the second without an address. *)
Definition contacts_df : DataFrame :=
  frame 2 [ ("email", Object [Some "a@x.com"; None]) ] eq_refl.

Definition contacts_rules : list RuleSpec :=
  [ column_rule_with "expect_column_values_to_match_regex" "email"
      [("regex", PStr "email")] ].

(** Two readings, the second missing: the column [1.0, NaN]. *)
Definition readings : Series := Float64 [float_of_Z 1; NaN].

Definition readings_df : DataFrame :=
  frame 2 [ ("reading", readings) ] eq_refl.

Definition readings_rules : list RuleSpec :=
  [ column_rule "expect_column_values_to_be_unique" "reading" ].

(** A rule of a kind the chain does not know, between two rules it knows. *)
Definition foo_rules : list RuleSpec :=
  [ column_rule "expect_column_values_to_not_be_null" "id";
    column_rule "expect_foo_bar" "id";
    column_rule "expect_column_values_to_be_unique" "id" ].

(** The type rule asked for a timestamp on the integer column, and for a
    type it does not check on a column the table does not have. *)
Definition id_as_timestamp : RuleSpec :=
  column_rule_with "expect_column_values_to_be_of_type" "id"
    [("type_", PStr "TimestampType")].

Definition ghost_as_string : RuleSpec :=
  column_rule_with "expect_column_values_to_be_of_type" "ghost"
    [("type_", PStr "StringType")].

(** A dict without 'name' after a rule that passes. *)
Definition nameless_rules : list RuleSpec :=
  [ column_rule "expect_column_values_to_not_be_null" "id";
    {| name := None; column := Some "id"; parameters := None |};
    column_rule "expect_column_values_to_be_unique" "id" ].


(** Rules with a key missing or a value of the wrong type. *)
Definition unique_without_column : RuleSpec :=
  {| name := Some "expect_column_values_to_be_unique";
     column := None; parameters := None |}.

Definition row_count_without_parameters : RuleSpec :=
  {| name := Some "expect_table_row_count_to_be_between";
     column := None; parameters := None |}.

Definition row_count_without_min : RuleSpec :=
  table_rule "expect_table_row_count_to_be_between" [("max_value", PInt 5)].

Definition row_count_seven_to_many : RuleSpec :=
  table_rule "expect_table_row_count_to_be_between"
    [("min_value", PInt 7); ("max_value", PStr "many")].

Definition row_count_from_text : RuleSpec :=
  table_rule "expect_table_row_count_to_be_between"
    [("min_value", PStr "1"); ("max_value", PInt 10)].

Definition regex_with_number : RuleSpec :=
  column_rule_with "expect_column_values_to_match_regex" "email" [("regex", PInt 7)].

(** The email column under the regex rule and the not-null rule. *)
Definition email_rules : list RuleSpec :=
  [ column_rule_with "expect_column_values_to_match_regex" "email"
      [("regex", PStr "email")];
    column_rule "expect_column_values_to_not_be_null" "email" ].

End Cases.

(** * Properties *)

#[local] Open Scope nat_scope.

(** ** Notions used in the statements *)

Definition has_name (exp : RuleSpec) : Prop := is_Some (name exp).

(** The keys a rule kind reads besides 'name': whether it reads 'column',
    and the keys of 'parameters' it reads. *)
Definition keys_needed (exp_name : string) : bool * list string :=
  if String.eqb exp_name "expect_table_row_count_to_be_between" then
    (false, ["min_value"; "max_value"])
  else if String.eqb exp_name "expect_table_columns_to_match_ordered_list" then
    (false, ["column_list"])
  else if String.eqb exp_name "expect_column_values_to_not_be_null" then (true, [])
  else if String.eqb exp_name "expect_column_values_to_be_unique" then (true, [])
  else if String.eqb exp_name "expect_column_values_to_match_regex" then (true, ["regex"])
  else if String.eqb exp_name "expect_column_values_to_be_between" then
    (true, ["min_value"; "max_value"])
  else if String.eqb exp_name "expect_column_values_to_be_in_set" then (true, ["value_set"])
  else if String.eqb exp_name "expect_column_values_to_be_of_type" then (true, ["type_"])
  else (false, []).

Definition has_parameter (exp : RuleSpec) (key : string) : bool :=
  match parameters exp with
  | Some (PDict d) => bool_decide (is_Some (d !! key))
  | _ => false
  end.

(** A rule that has the keys its kind needs, 'name' included. *)
Definition well_formed (exp : RuleSpec) : bool :=
  match name exp with
  | Some exp_name =>
      let (needs_column, keys) := keys_needed exp_name in
      (negb needs_column || bool_decide (is_Some (column exp)))
      && forallb (has_parameter exp) keys
  | None => false
  end.

(** What one rule contributes to the list: the result of the body, or the
    error dict of the handler. *)
Definition appended (pd : PandasOps) (df : DataFrame) (exp : RuleSpec)
    (exp_name : string) : Result :=
  match try_body pd df exp exp_name with
  | Return result => result
  | Raise e => error_result exp_name e
  end.

(** [r] is what the rule [exp] contributes. *)
Definition result_of (pd : PandasOps) (df : DataFrame) (exp : RuleSpec)
    (r : Result) : Prop :=
  ∃ exp_name, name exp = Some exp_name ∧ r = appended pd df exp exp_name.

(** An outcome that, when it is a result, is a result dict for [exp_name]. *)
Definition for_rule (exp_name : string) (o : outcome Result) : Prop :=
  match o with
  | Return r => ∃ s ov d, r = mk_result exp_name s ov d
  | Raise _ => True
  end.

(** The pattern test of the regex rule:
    ['email' in regex_pattern.lower() or '@' in regex_pattern]. *)
Definition email_style (pattern : string) : bool :=
  contains "email" (lower pattern) || contains "@" pattern.

(** The test of the type rule on the expected type. *)
Definition temporal_type (expected_type : string) : bool :=
  contains "timestamp" (lower expected_type) || contains "date" (lower expected_type).

(** The same test in the words of the specification, without [lower]: the
    character [a] is [b] in either case when it is [b] itself or the
    capital letter 32 code points below it. *)
Definition letter_any_case (a b : ascii) : Prop :=
  a = b ∨ ((65 ≤ N_of_ascii a ≤ 90)%N ∧ N_of_ascii b = (N_of_ascii a + 32)%N).

(** [s] spells the word [w] letter by letter, in any case. *)
Inductive spelled_any_case : string → string → Prop :=
| spelled_nil : spelled_any_case "" ""
| spelled_cons a b s w :
    letter_any_case a b → spelled_any_case s w →
    spelled_any_case (String a s) (String b w).

(** The word [w] occurs in [t] case-insensitively. *)
Definition mentions_any_case (w t : string) : Prop :=
  ∃ pre mid post, t = pre +:+ mid +:+ post ∧ spelled_any_case mid w.

(** The expected types the specification calls temporal. *)
Definition temporal_in_any_case (expected_type : string) : Prop :=
  mentions_any_case "timestamp" expected_type
  ∨ mentions_any_case "date" expected_type.

(** The number of distinct cells of a column when a missing value counts as
    a value of its own, as the specification words the uniqueness rule. *)
Definition distinct_count_with_missing (s : Series) : nat :=
  length (remove_dups (cells s)).

(** The two kinds whose body reads the column before anything else. *)
Definition reads_column_first : list string :=
  [ "expect_column_values_to_not_be_null"; "expect_column_values_to_be_unique" ].

(** The six kinds whose body starts with [column = exp['column']]. *)
Definition column_scoped : list string :=
  [ "expect_column_values_to_not_be_null";
    "expect_column_values_to_be_unique";
    "expect_column_values_to_match_regex";
    "expect_column_values_to_be_between";
    "expect_column_values_to_be_in_set";
    "expect_column_values_to_be_of_type" ].

(** The first key of 'parameters' a kind reads, if it reads one. *)
Definition first_parameter (exp_name : string) : option string :=
  head (keys_needed exp_name).2.

(** The rule gets as far as [df[column]]: the parameters read before it are
    there, and for the regex and type rules they are strings that send the
    body to the frame. *)
Definition column_is_read (exp : RuleSpec) (exp_name : string) : Prop :=
  if String.eqb exp_name "expect_column_values_to_not_be_null" then True
  else if String.eqb exp_name "expect_column_values_to_be_unique" then True
  else if String.eqb exp_name "expect_column_values_to_match_regex" then
    ∃ p, parameter exp "regex" = Return (PStr p) ∧ email_style p = true
  else if String.eqb exp_name "expect_column_values_to_be_between" then
    (∃ lo, parameter exp "min_value" = Return lo)
    ∧ (∃ hi, parameter exp "max_value" = Return hi)
  else if String.eqb exp_name "expect_column_values_to_be_in_set" then
    ∃ vs, parameter exp "value_set" = Return vs
  else if String.eqb exp_name "expect_column_values_to_be_of_type" then
    ∃ t, parameter exp "type_" = Return (PStr t)
  else False.

(** The cells of a column that are missing. *)
Definition missing_cells (s : Series) : list cell :=
  filter (λ c : cell, c = None) (cells s).

(** Every result of a list passed. *)
Definition all_passed (results : list Result) : Prop :=
  Forall (λ r : Result, r !! "success" = Some (VBool true)) results.

(** The dicts the engine builds. *)
Definition built (r : Result) : Prop := ∃ n s ov d, r = mk_result n s ov d.

(** The four keys of a result dict. *)
Definition result_keys : gset string :=
  {[ "expectation"; "success"; "observed_value"; "details" ]}.

(** ** Substrings *)

Lemma contains_unfold sub s :
  contains sub s
  = String.prefix sub s
    || match s with EmptyString => false | String _ s' => contains sub s' end.
Proof. by destruct s. Qed.

Lemma prefix_spec sub : ∀ s,
  String.prefix sub s = true ↔ ∃ post, s = sub +:+ post.
Proof.
  induction sub as [|a sub IH]; intros [|b s]; simpl.
  - split; [intros _; by exists "" | done].
  - split; [intros _; by exists (String b s) | done].
  - split; [done | by intros [? ?]].
  - destruct (ascii_dec a b) as [->|Hne].
    + rewrite IH. split; intros [post Hpost]; exists post;
        [by rewrite Hpost | by injection Hpost].
    + split; [done | intros [post [= ? ?]]; done].
Qed.

(** [contains sub s] holds exactly when [sub] occurs in [s]. *)
Lemma contains_spec sub s :
  contains sub s = true ↔ ∃ pre post, s = pre +:+ sub +:+ post.
Proof.
  split.
  - induction s as [|a s IH]; rewrite contains_unfold, orb_true_iff.
    + intros [Hprefix|?]; [|done]. apply prefix_spec in Hprefix as [post ->].
      by exists "", post.
    + intros [Hprefix|Hrest].
      * apply prefix_spec in Hprefix as [post ->]. by exists "", post.
      * destruct (IH Hrest) as (pre & post & ->). by exists (String a pre), post.
  - intros (pre & post & ->). induction pre as [|a pre IH].
    + rewrite contains_unfold, orb_true_iff. left. apply prefix_spec. by exists post.
    + rewrite contains_unfold, orb_true_iff. right. exact IH.
Qed.

(** *** Case *)

Lemma lower_app s t : lower (s +:+ t) = lower s +:+ lower t.
Proof. induction s as [|a s IH]; simpl; [done | by rewrite IH]. Qed.

Lemma lower_app_inv x : ∀ t y,
  lower t = x +:+ y → ∃ t1 t2, t = t1 +:+ t2 ∧ lower t1 = x ∧ lower t2 = y.
Proof.
  induction x as [|b x IH]; intros t y Ht.
  - by exists "", t.
  - destruct t as [|a t]; [done|]. simpl in Ht. injection Ht as Ha Ht.
    destruct (IH t y Ht) as (t1 & t2 & -> & Hx & Hy).
    exists (String a t1), t2. simpl. by rewrite Ha, Hx.
Qed.

Lemma lower_ascii_any_case a : letter_any_case a (lower_ascii a).
Proof.
  unfold letter_any_case, lower_ascii. cbv zeta.
  destruct ((65 <=? N_of_ascii a)%N && (N_of_ascii a <=? 90)%N) eqn:Hcap; [|by left].
  apply andb_true_iff in Hcap as [Hlo Hhi].
  apply N.leb_le in Hlo, Hhi. right. split; [done|].
  apply N_ascii_embedding. lia.
Qed.

Lemma any_case_lower_ascii a b :
  letter_any_case a b → lower_ascii b = b → lower_ascii a = b.
Proof.
  intros [->|[[Hlo Hhi] Hb]] Hfixed; [done|].
  unfold lower_ascii. cbv zeta.
  apply N.leb_le in Hlo, Hhi. rewrite Hlo, Hhi. simpl.
  rewrite <- Hb. apply ascii_N_embedding.
Qed.

Lemma lower_spelled s : spelled_any_case s (lower s).
Proof.
  induction s as [|a s IH]; simpl; constructor; [apply lower_ascii_any_case | done].
Qed.

Lemma spelled_lower s w : spelled_any_case s w → lower w = w → lower s = w.
Proof.
  induction 1 as [|a b s w Hletter _ IH]; [done|].
  simpl. intros [= Hb Hw]. by rewrite (any_case_lower_ascii a b Hletter Hb), (IH Hw).
Qed.

(** Searching the lower-cased text for a word without capitals is searching
    the text for the word in any case. *)
Lemma contains_lower_any_case w t :
  lower w = w → contains w (lower t) = true ↔ mentions_any_case w t.
Proof.
  intros Hw. rewrite contains_spec. split.
  - intros (pre' & post' & Ht).
    destruct (lower_app_inv pre' t _ Ht) as (pre & rest & -> & _ & Hrest).
    destruct (lower_app_inv w rest _ Hrest) as (mid & post & -> & <- & _).
    exists pre, mid, post. split; [done | apply lower_spelled].
  - intros (pre & mid & post & -> & Hmid).
    exists (lower pre), (lower post).
    by rewrite !lower_app, (spelled_lower mid w Hmid Hw).
Qed.

Lemma temporal_type_any_case t : temporal_type t = true ↔ temporal_in_any_case t.
Proof.
  unfold temporal_type, temporal_in_any_case. rewrite orb_true_iff.
  by rewrite !contains_lower_any_case.
Qed.

Lemma temporal_type_no_case t : temporal_type t = false ↔ ¬ temporal_in_any_case t.
Proof. rewrite <- temporal_type_any_case. by destruct (temporal_type t). Qed.

(** ** The loop *)

Section Loop.
Context (pd : PandasOps).

Lemma run_rule_appended df exp exp_name results :
  run_rule pd df exp exp_name results = results ++ [appended pd df exp exp_name].
Proof. unfold run_rule, appended. by destruct (try_body _ _ _ _). Qed.

Lemma run_loop_named df rules : ∀ results,
  Forall has_name rules →
  ∃ new, run_loop pd df rules results = Return (results ++ new)
         ∧ Forall2 (result_of pd df) rules new.
Proof.
  induction rules as [|exp rest IH]; intros results Hnames.
  - exists []. by rewrite app_nil_r.
  - apply Forall_cons in Hnames as [[exp_name Hname] Hrest].
    destruct (IH (results ++ [appended pd df exp exp_name]) Hrest) as (new & Hrun & Hnew).
    exists (appended pd df exp exp_name :: new). split.
    + simpl. rewrite Hname. simpl. rewrite run_rule_appended, Hrun.
      by rewrite <- app_assoc.
    + constructor; [by exists exp_name | done].
Qed.

Lemma run_named df table_name rules :
  Forall has_name rules →
  ∃ results, run_expectations_manually pd df table_name rules = Return results
             ∧ Forall2 (result_of pd df) rules results.
Proof.
  intros Hnames.
  destruct (run_loop_named df rules [] Hnames) as (new & ? & ?); eauto.
Qed.

(** The result at the position of a rule is the one that rule contributes. *)
Lemma run_lookup df table_name rules i exp exp_name :
  Forall has_name rules →
  rules !! i = Some exp →
  name exp = Some exp_name →
  ∃ results, run_expectations_manually pd df table_name rules = Return results
             ∧ results !! i = Some (appended pd df exp exp_name).
Proof.
  intros Hnames Hi Hname.
  destruct (run_named df table_name rules Hnames) as (results & Hrun & Hall).
  exists results. split; [done|].
  destruct (Forall2_lookup_l _ _ _ _ _ Hall Hi) as (r & Hr & n & Hn & ->).
  congruence.
Qed.

Lemma run_loop_nameless df rules : ∀ results,
  Exists (λ exp, name exp = None) rules →
  run_loop pd df rules results = Raise (KeyError "name").
Proof.
  induction rules as [|exp rest IH]; intros results Hex.
  - by apply Exists_nil in Hex.
  - simpl. destruct (name exp) as [exp_name|] eqn:Hname; [|done].
    simpl. apply IH. apply Exists_cons in Hex as [?|?]; [congruence | done].
Qed.

Lemma well_formed_has_name exp : well_formed exp = true → has_name exp.
Proof. unfold well_formed, has_name. destruct (name exp); [eauto | done]. Qed.

(** ** Shape of the result dicts *)

Lemma mk_result_expectation n s o d : mk_result n s o d !! "expectation" = Some (VStr n).
Proof. reflexivity. Qed.
Lemma mk_result_success n s o d : mk_result n s o d !! "success" = Some (VBool s).
Proof. reflexivity. Qed.
Lemma mk_result_observed_value n s o d : mk_result n s o d !! "observed_value" = Some o.
Proof. reflexivity. Qed.
Lemma mk_result_details n s o d : mk_result n s o d !! "details" = Some d.
Proof. reflexivity. Qed.
Lemma mk_result_error n s o d : mk_result n s o d !! "error" = None.
Proof. reflexivity. Qed.
Lemma mk_result_keys n s o d : dom (mk_result n s o d) = result_keys.
Proof. unfold mk_result, result_keys. rewrite !dom_insert_L. set_solver. Qed.

Lemma for_rule_bind {A} exp_name (m : outcome A) (k : A → outcome Result) :
  (∀ a, for_rule exp_name (k a)) → for_rule exp_name (m ≫= k).
Proof. intros Hk. destruct m; simpl; [apply Hk | done]. Qed.

Lemma for_rule_return exp_name s ov d :
  for_rule exp_name (Return (mk_result exp_name s ov d)).
Proof. simpl. eauto. Qed.

Ltac for_rule_steps :=
  repeat first
    [ apply for_rule_return
    | apply for_rule_bind; intros
    | match goal with |- for_rule _ (if ?b then _ else _) => destruct b end ].

Lemma try_body_for_rule df exp exp_name : for_rule exp_name (try_body pd df exp exp_name).
Proof.
  unfold try_body.
  repeat match goal with |- for_rule _ (if ?b then _ else _) => destruct b end.
  - unfold expect_table_row_count_to_be_between. for_rule_steps.
  - unfold expect_table_columns_to_match_ordered_list. for_rule_steps.
  - unfold expect_column_values_to_not_be_null. for_rule_steps.
  - unfold expect_column_values_to_be_unique. for_rule_steps.
  - unfold expect_column_values_to_match_regex. for_rule_steps.
  - unfold expect_column_values_to_be_between. for_rule_steps.
  - unfold expect_column_values_to_be_in_set. for_rule_steps.
  - unfold expect_column_values_to_be_of_type. for_rule_steps.
  - unfold not_implemented. apply for_rule_return.
Qed.

Lemma appended_shape df exp exp_name :
  ∃ s ov d, appended pd df exp exp_name = mk_result exp_name s ov d.
Proof.
  unfold appended. pose proof (try_body_for_rule df exp exp_name) as H.
  destruct (try_body pd df exp exp_name); simpl in H; [done|].
  unfold error_result. eauto.
Qed.

Lemma try_body_unrecognized df exp exp_name :
  exp_name ∉ recognized →
  try_body pd df exp exp_name = Return (not_implemented exp_name).
Proof.
  intros Hnot. unfold try_body.
  repeat match goal with
  | |- (if String.eqb exp_name ?s then _ else _) = _ =>
      destruct (String.eqb_spec exp_name s) as [->|_];
      [exfalso; apply Hnot; unfold recognized; set_solver|]
  end.
  done.
Qed.

(** A rule of these kinds on a column the frame does not have raises the
    [KeyError] of the frame. *)
Lemma absent_column_raises df exp exp_name c :
  exp_name ∈ reads_column_first →
  column exp = Some c →
  find_column c (data df) = None →
  try_body pd df exp exp_name = Raise (KeyError c).
Proof.
  intros Hkind Hcolumn Habsent. unfold reads_column_first in Hkind.
  apply elem_of_cons in Hkind as [->|Hkind];
    [|apply elem_of_cons in Hkind as [->|Hkind]; [|by apply elem_of_nil in Hkind]].
  - change (try_body pd df exp "expect_column_values_to_not_be_null")
      with (expect_column_values_to_not_be_null df exp
              "expect_column_values_to_not_be_null").
    unfold expect_column_values_to_not_be_null. rewrite Hcolumn.
    cbn [getitem_field mbind outcome_bind]. unfold df_getitem. by rewrite Habsent.
  - change (try_body pd df exp "expect_column_values_to_be_unique")
      with (expect_column_values_to_be_unique df exp
              "expect_column_values_to_be_unique").
    unfold expect_column_values_to_be_unique. rewrite Hcolumn.
    cbn [getitem_field mbind outcome_bind]. unfold df_getitem. by rewrite Habsent.
Qed.

(** ** The batch *)

(** C1. Whatever the dataset, its labels being distinct, a list of [n]
    rules (each a dict with its 'name') gives exactly [n] results, and the
    result at each position is the one its own rule contributes: it carries
    that rule's name. *)
Theorem one_result_per_rule_in_order df table_name rules :
  NoDup (columns df) →
  Forall has_name rules →
  ∃ results,
    run_expectations_manually pd df table_name rules = Return results
    ∧ length results = length rules
    ∧ ∀ i exp, rules !! i = Some exp →
        ∃ exp_name r,
          name exp = Some exp_name
          ∧ results !! i = Some r
          ∧ r = appended pd df exp exp_name
          ∧ r !! "expectation" = Some (VStr exp_name).
Proof.
  intros _ Hnames.
  destruct (run_named df table_name rules Hnames) as (results & Hrun & Hall).
  exists results. split_and!; [done | symmetry; by eapply Forall2_length |].
  intros i exp Hi.
  destruct (Forall2_lookup_l _ _ _ _ _ Hall Hi) as (r & Hr & exp_name & Hname & ->).
  exists exp_name, (appended pd df exp exp_name). split_and!; try done.
  destruct (appended_shape df exp exp_name) as (s & ov & d & ->).
  apply mk_result_expectation.
Qed.

(** C4. On rules that have the keys their kind needs, 'name' included, the
    function returns one dict per rule and raises nothing (the progress
    lines are taken to be written, [print] is not modelled). Whatever the
    body of a rule raises is caught there and becomes that rule's dict:
    [success] false, the text of the exception after "Error: " as observed
    value, "Failed to run expectation" and the name as details, under the
    same four keys as any other result. *)
Theorem well_formed_rules_never_raise df table_name rules :
  Forall (λ exp, well_formed exp = true) rules →
  ∃ results,
    run_expectations_manually pd df table_name rules = Return results
    ∧ length results = length rules
    ∧ ∀ i exp, rules !! i = Some exp →
        ∃ exp_name r,
          name exp = Some exp_name
          ∧ results !! i = Some r
          ∧ dom r = result_keys
          ∧ r !! "expectation" = Some (VStr exp_name)
          ∧ (∀ result, try_body pd df exp exp_name = Return result → r = result)
          ∧ (∀ e, try_body pd df exp exp_name = Raise e →
               r !! "success" = Some (VBool false)
               ∧ r !! "observed_value" = Some (VFmt [Lit "Error: "; FmtExn e])
               ∧ r !! "details"
                 = Some (VStr ("Failed to run expectation " +:+ exp_name))).
Proof.
  intros Hwf.
  assert (Forall has_name rules) as Hnames.
  { eapply Forall_impl; [exact Hwf|]. apply well_formed_has_name. }
  destruct (run_named df table_name rules Hnames) as (results & Hrun & Hall).
  exists results. split_and!; [done | symmetry; by eapply Forall2_length |].
  intros i exp Hi.
  destruct (Forall2_lookup_l _ _ _ _ _ Hall Hi) as (r & Hr & exp_name & Hname & ->).
  exists exp_name, (appended pd df exp exp_name). split_and!; try done.
  - destruct (appended_shape df exp exp_name) as (s & ov & d & ->).
    apply mk_result_keys.
  - destruct (appended_shape df exp exp_name) as (s & ov & d & ->).
    apply mk_result_expectation.
  - intros result Hresult. unfold appended. by rewrite Hresult.
  - intros e Hraise. unfold appended. rewrite Hraise. by split_and!.
Qed.

(** C10. As soon as one rule of the list has no 'name', the call raises
    [KeyError('name')] and returns no result at all. *)
Theorem missing_name_aborts_batch df table_name rules :
  (∃ exp, exp ∈ rules ∧ name exp = None) →
  run_expectations_manually pd df table_name rules = Raise (KeyError "name").
Proof.
  intros (exp & Hin & Hname). apply run_loop_nameless.
  apply Exists_exists. eauto.
Qed.

(** C3. A rule whose name is none of the eight the chain tests gets, at its
    position, a passing result marked as skipped and not implemented. *)
Theorem unrecognized_rule_is_skipped df table_name rules i exp exp_name :
  Forall has_name rules →
  rules !! i = Some exp →
  name exp = Some exp_name →
  exp_name ∉ recognized →
  ∃ results r,
    run_expectations_manually pd df table_name rules = Return results
    ∧ results !! i = Some r
    ∧ r !! "expectation" = Some (VStr exp_name)
    ∧ r !! "success" = Some (VBool true)
    ∧ r !! "observed_value" = Some (VStr "Skipped")
    ∧ r !! "details"
      = Some (VStr ("Expectation " +:+ exp_name +:+ " not implemented in demo")).
Proof.
  intros Hnames Hi Hname Hnot.
  destruct (run_lookup df table_name rules i exp exp_name Hnames Hi Hname)
    as (results & Hrun & Hr).
  exists results, (not_implemented exp_name).
  unfold appended in Hr. rewrite (try_body_unrecognized df exp exp_name Hnot) in Hr.
  split_and!; done.
Qed.

(** C2, as the code has it. When the body of a rule raises [e], the result
    at the rule's position has [success] false, the text of [e] after
    "Error: " as its observed value, and no 'error' key; every later rule
    still contributes its own result. *)
Theorem raising_rule_yields_error_result df table_name rules i exp exp_name e :
  Forall has_name rules →
  rules !! i = Some exp →
  name exp = Some exp_name →
  try_body pd df exp exp_name = Raise e →
  ∃ results r,
    run_expectations_manually pd df table_name rules = Return results
    ∧ results !! i = Some r
    ∧ r !! "expectation" = Some (VStr exp_name)
    ∧ r !! "success" = Some (VBool false)
    ∧ r !! "observed_value" = Some (VFmt [Lit "Error: "; FmtExn e])
    ∧ r !! "details" = Some (VStr ("Failed to run expectation " +:+ exp_name))
    ∧ r !! "error" = None
    ∧ ∀ j exp', i < j → rules !! j = Some exp' →
        ∃ r', results !! j = Some r' ∧ result_of pd df exp' r'.
Proof.
  intros Hnames Hi Hname Hraise.
  destruct (run_named df table_name rules Hnames) as (results & Hrun & Hall).
  destruct (Forall2_lookup_l _ _ _ _ _ Hall Hi) as (r & Hr & n & Hn & ->).
  assert (n = exp_name) as -> by congruence.
  exists results, (appended pd df exp exp_name).
  unfold appended at 2 3 4 5 6. rewrite Hraise.
  split_and!; try done.
  intros j exp' _ Hj. by apply (Forall2_lookup_l _ _ _ _ _ Hall Hj).
Qed.

End Loop.

(** ** The rule kinds *)

Section Kinds.
Context (pd : PandasOps).

Lemma float_le_of_Z a b : float_le (float_of_Z a) (float_of_Z b) = bool_decide (a ≤ b)%Z.
Proof.
  unfold float_of_Z. simpl. apply bool_decide_ext. symmetry. apply Z2Qc_inj_le.
Qed.

Lemma py_le_int_int a n : py_le_int (PInt a) n = Return (bool_decide (a ≤ n)%Z).
Proof. unfold py_le_int. cbn -[float_le float_of_Z]. by rewrite float_le_of_Z. Qed.

Lemma int_le_py_int n b : int_le_py n (PInt b) = Return (bool_decide (n ≤ b)%Z).
Proof. unfold int_le_py. cbn -[float_le float_of_Z]. by rewrite float_le_of_Z. Qed.

Ltac bind_step := cbn [mbind outcome_bind mret outcome_ret].

Lemma row_count_appended df exp lo hi :
  parameter exp "min_value" = Return (PInt lo) →
  parameter exp "max_value" = Return (PInt hi) →
  appended pd df exp "expect_table_row_count_to_be_between"
  = mk_result "expect_table_row_count_to_be_between"
      (bool_decide (lo ≤ Z.of_nat (nrows df) ≤ hi)%Z)
      (VInt (Z.of_nat (nrows df)))
      (VFmt [Lit "Row count "; Fmt (PInt (Z.of_nat (nrows df)));
             Lit " should be between "; Fmt (PInt lo);
             Lit " and "; Fmt (PInt hi)]).
Proof.
  intros Hmin Hmax. unfold appended.
  change (try_body pd df exp "expect_table_row_count_to_be_between")
    with (expect_table_row_count_to_be_between df exp
            "expect_table_row_count_to_be_between").
  unfold expect_table_row_count_to_be_between.
  rewrite Hmin, Hmax. bind_step. rewrite py_le_int_int. bind_step.
  destruct (bool_decide_reflect (lo ≤ Z.of_nat (nrows df))%Z) as [Hlo|Hlo].
  - rewrite int_le_py_int. bind_step. f_equal.
    apply bool_decide_ext. lia.
  - bind_step. f_equal. symmetry. apply bool_decide_eq_false. lia.
Qed.

(** C5. The row-count rule passes exactly when
    [min_value <= row count <= max_value], both bounds included: a row
    count equal to a bound of a non-empty range passes, one below
    [min_value] or one above [max_value] fails, and the observed value is
    the row count. *)
Theorem row_count_bounds_are_inclusive df table_name rules i exp lo hi :
  Forall has_name rules →
  rules !! i = Some exp →
  name exp = Some "expect_table_row_count_to_be_between" →
  parameter exp "min_value" = Return (PInt lo) →
  parameter exp "max_value" = Return (PInt hi) →
  ∃ results r,
    run_expectations_manually pd df table_name rules = Return results
    ∧ results !! i = Some r
    ∧ r !! "observed_value" = Some (VInt (Z.of_nat (nrows df)))
    ∧ r !! "success"
      = Some (VBool (bool_decide (lo ≤ Z.of_nat (nrows df) ≤ hi)%Z))
    ∧ ((lo ≤ hi)%Z →
       Z.of_nat (nrows df) = lo ∨ Z.of_nat (nrows df) = hi →
       r !! "success" = Some (VBool true))
    ∧ (Z.of_nat (nrows df) = (lo - 1)%Z ∨ Z.of_nat (nrows df) = (hi + 1)%Z →
       r !! "success" = Some (VBool false)).
Proof.
  intros Hnames Hi Hname Hmin Hmax.
  destruct (run_lookup pd df table_name rules i exp _ Hnames Hi Hname)
    as (results & Hrun & Hr).
  rewrite (row_count_appended df exp lo hi Hmin Hmax) in Hr.
  eexists results, _. split; [exact Hrun|]. split; [exact Hr|].
  rewrite mk_result_observed_value, mk_result_success.
  split_and!; try done.
  - intros Hrange Hbound. do 2 f_equal. apply bool_decide_eq_true. lia.
  - intros Hbound. do 2 f_equal. apply bool_decide_eq_false. lia.
Qed.

Lemma strs_eqb_spec actual : ∀ expected_cols,
  strs_eqb actual (map PStr expected_cols) = bool_decide (actual = expected_cols).
Proof.
  induction actual as [|a actual IH]; intros [|b expected_cols]; simpl; try done.
  rewrite IH. destruct (String.eqb_spec a b) as [->|Hne]; simpl.
  - apply bool_decide_ext. split; [by intros -> | by intros [= ->]].
  - symmetry. apply bool_decide_eq_false. by intros [= ? ?].
Qed.

Lemma columns_appended df exp expected :
  parameter exp "column_list" = Return expected →
  appended pd df exp "expect_table_columns_to_match_ordered_list"
  = mk_result "expect_table_columns_to_match_ordered_list"
      (list_eq_py (columns df) expected)
      (VStrs (columns df))
      (VFmt [Lit "Expected columns "; Fmt expected;
             Lit ", got "; Fmt (PList (map PStr (columns df)))]).
Proof.
  intros Hexpected. unfold appended.
  change (try_body pd df exp "expect_table_columns_to_match_ordered_list")
    with (expect_table_columns_to_match_ordered_list df exp
            "expect_table_columns_to_match_ordered_list").
  unfold expect_table_columns_to_match_ordered_list.
  rewrite Hexpected. by bind_step.
Qed.

(** C6. The ordered-columns rule passes exactly when the labels of the
    frame, read in order, are the expected list: a reordering of the right
    labels fails, a list of another length fails, and the observed value is
    the list of labels of the frame. *)
Theorem columns_must_match_in_order df table_name rules i exp expected_cols :
  Forall has_name rules →
  rules !! i = Some exp →
  name exp = Some "expect_table_columns_to_match_ordered_list" →
  parameter exp "column_list" = Return (PList (map PStr expected_cols)) →
  ∃ results r,
    run_expectations_manually pd df table_name rules = Return results
    ∧ results !! i = Some r
    ∧ r !! "observed_value" = Some (VStrs (columns df))
    ∧ r !! "success" = Some (VBool (bool_decide (columns df = expected_cols)))
    ∧ (expected_cols ≡ₚ columns df → expected_cols ≠ columns df →
       r !! "success" = Some (VBool false))
    ∧ (length expected_cols ≠ length (columns df) →
       r !! "success" = Some (VBool false)).
Proof.
  intros Hnames Hi Hname Hexpected.
  destruct (run_lookup pd df table_name rules i exp _ Hnames Hi Hname)
    as (results & Hrun & Hr).
  rewrite (columns_appended df exp _ Hexpected) in Hr.
  eexists results, _. split; [exact Hrun|]. split; [exact Hr|].
  rewrite mk_result_observed_value, mk_result_success.
  unfold list_eq_py. rewrite strs_eqb_spec.
  split_and!; try done.
  - intros _ Hne. do 2 f_equal. apply bool_decide_eq_false. congruence.
  - intros Hlen. do 2 f_equal. apply bool_decide_eq_false. congruence.
Qed.

(** *** Counting *)

Lemma mask_sum_le mask : mask_sum mask ≤ length mask.
Proof. apply length_filter. Qed.

Lemma mask_sum_full mask : mask_sum mask = length mask ↔ Forall (λ b, b = true) mask.
Proof.
  unfold mask_sum. induction mask as [|b mask IH].
  - split; [constructor | done].
  - rewrite filter_cons, Forall_cons.
    pose proof (length_filter (λ b : bool, b = true) mask).
    case_decide as Hb; simpl.
    + split; [intros [= Hlen]; split; [done | by apply IH] |].
      intros [_ Hall]. f_equal. by apply IH.
    + split; [intros ?; lia | by intros [? _]].
Qed.

Lemma length_remove_dups_le {A} `{EqDecision A} (l : list A) :
  length (remove_dups l) ≤ length l.
Proof. induction l as [|x l IH]; simpl; [done|]. case_decide; simpl; lia. Qed.

Lemma length_remove_dups_full {A} `{EqDecision A} (l : list A) :
  length (remove_dups l) = length l ↔ NoDup l.
Proof.
  induction l as [|x l IH]; simpl.
  - split; [constructor | done].
  - rewrite NoDup_cons. pose proof (length_remove_dups_le l).
    case_decide; simpl.
    + split; [intros ?; lia | by intros [? _]].
    + rewrite <- IH. split; [intros [= ?]; done | intros [_ ?]; lia].
Qed.

Lemma length_dropna_le l : length (dropna l) ≤ length l.
Proof. induction l as [|[x|] l IH]; simpl; lia. Qed.

Lemma length_dropna_full l : length (dropna l) = length l ↔ None ∉ l.
Proof.
  induction l as [|[x|] l IH]; simpl.
  - split; [intros _; apply not_elem_of_nil | done].
  - rewrite not_elem_of_cons, <- IH. split; [intros [= ?]; done | intros [_ ?]; lia].
  - pose proof (length_dropna_le l). rewrite not_elem_of_cons.
    split; [intros ?; lia | by intros [? _]].
Qed.

Lemma dropna_all l : None ∉ l → l = Some <$> dropna l.
Proof.
  induction l as [|[x|] l IH]; simpl; [done | |].
  - rewrite not_elem_of_cons. intros [_ ?]. f_equal. by apply IH.
  - rewrite not_elem_of_cons. by intros [? _].
Qed.

(** The distinct present values are as many as the cells exactly when no
    cell is missing and no two cells are equal. *)
Lemma nunique_full s :
  nunique s = series_len s ↔ ((None ∉ cells s) ∧ NoDup (cells s)).
Proof.
  unfold nunique, series_len.
  pose proof (length_remove_dups_le (dropna (cells s))) as Hdups.
  pose proof (length_dropna_le (cells s)) as Hpresent.
  split.
  - intros Heq.
    assert (None ∉ cells s) as Hnone by (apply length_dropna_full; lia).
    split; [done|]. rewrite (dropna_all _ Hnone).
    apply (NoDup_fmap_2 _), length_remove_dups_full. lia.
  - intros [Hnone Hnodup].
    apply length_dropna_full in Hnone as Hlen. rewrite <- Hlen.
    apply length_remove_dups_full. rewrite (dropna_all _ Hnone) in Hnodup.
    by apply NoDup_fmap_1 in Hnodup.
Qed.

(** *** Columns of a frame *)

Lemma df_getitem_Return df c s :
  df_getitem df c = Return s ↔ find_column c (data df) = Some s.
Proof.
  unfold df_getitem. destruct (find_column c (data df)); simpl; [|done].
  split; congruence.
Qed.

Lemma find_column_elem c cols s :
  find_column c cols = Some s → (c, s) ∈ cols.
Proof.
  induction cols as [|[l s'] cols IH]; simpl; [done|].
  destruct (String.eqb_spec l c) as [->|_].
  - intros [= ->]. apply list_elem_of_here.
  - intros ?. apply list_elem_of_further. by apply IH.
Qed.

Lemma frame_ok_column df c s :
  frame_ok df → df_getitem df c = Return s → series_len s = nrows df.
Proof.
  intros Hok Hget. apply df_getitem_Return, find_column_elem in Hget.
  unfold frame_ok in Hok. rewrite Forall_forall in Hok. by apply (Hok (c, s)).
Qed.

(** The labels of a frame are distinct, so a label selects the one column
    that carries it, wherever it stands in the frame. *)
Lemma columns_distinct df : NoDup (columns df).
Proof. apply labels_distinct. Qed.

Lemma find_column_only c s : ∀ cols,
  NoDup (map fst cols) → (c, s) ∈ cols → find_column c cols = Some s.
Proof.
  induction cols as [|[l s'] cols IH]; simpl; [by intros _ ?%elem_of_nil|].
  rewrite NoDup_cons. intros [Hl Hrest] Hin.
  apply elem_of_cons in Hin as [[= <- <-]|Hin]; [by rewrite String.eqb_refl|].
  destruct (String.eqb_spec l c) as [->|_]; [|by apply IH].
  destruct Hl. apply list_elem_of_In, in_map_iff. exists (c, s).
  split; [done | by apply list_elem_of_In].
Qed.

Lemma df_getitem_only df c s :
  (c, s) ∈ data df → df_getitem df c = Return s.
Proof.
  intros Hin. unfold df_getitem.
  by rewrite (find_column_only c s (data df) (labels_distinct df) Hin).
Qed.

(** *** Uniqueness *)

Lemma unique_appended df exp c s :
  column exp = Some c →
  df_getitem df c = Return s →
  appended pd df exp "expect_column_values_to_be_unique"
  = mk_result "expect_column_values_to_be_unique"
      (bool_decide (nunique s = series_len s))
      (VStr (pretty (nunique s) +:+ " unique out of " +:+ pretty (series_len s)))
      (VStr ("Column " +:+ c +:+ " should have all unique values")).
Proof.
  intros Hcolumn Hget. unfold appended.
  change (try_body pd df exp "expect_column_values_to_be_unique")
    with (expect_column_values_to_be_unique df exp
            "expect_column_values_to_be_unique").
  unfold expect_column_values_to_be_unique.
  rewrite Hcolumn. cbn [getitem_field]. bind_step. rewrite Hget. bind_step.
  f_equal. destruct (Nat.eqb_spec (nunique s) (series_len s)) as [Heq|Hne].
  - symmetry. by apply bool_decide_eq_true.
  - symmetry. by apply bool_decide_eq_false.
Qed.

(** C8, as the code has it. The uniqueness rule passes exactly when the
    number of distinct values of the column that are not missing equals
    its number of rows, that is when no cell is missing and no two cells
    are equal; a missing value is not counted as a value. *)
Theorem unique_counts_present_values df table_name rules i exp c s :
  Forall has_name rules →
  rules !! i = Some exp →
  name exp = Some "expect_column_values_to_be_unique" →
  column exp = Some c →
  df_getitem df c = Return s →
  ∃ results r,
    run_expectations_manually pd df table_name rules = Return results
    ∧ results !! i = Some r
    ∧ r !! "observed_value"
      = Some (VStr (pretty (nunique s) +:+ " unique out of "
                    +:+ pretty (series_len s)))
    ∧ r !! "success" = Some (VBool (bool_decide (nunique s = series_len s)))
    ∧ (nunique s = series_len s ↔ ((None ∉ cells s) ∧ NoDup (cells s))).
Proof.
  intros Hnames Hi Hname Hcolumn Hget.
  destruct (run_lookup pd df table_name rules i exp _ Hnames Hi Hname)
    as (results & Hrun & Hr).
  rewrite (unique_appended df exp c s Hcolumn Hget) in Hr.
  eexists results, _. split; [exact Hrun|]. split; [exact Hr|].
  rewrite mk_result_observed_value, mk_result_success.
  split_and!; try done. apply nunique_full.
Qed.

(** *** Patterns *)

Lemma email_check_value p :
  (lowered ← py_lower (PStr p);
   if contains "email" lowered then Return true else py_in "@" (PStr p))
  = Return (email_style p).
Proof.
  unfold email_style. cbn [py_lower py_in]. bind_step.
  by destruct (contains "email" (lower p)).
Qed.

(** Every cell of a string column holds a string that contains "@". *)
Lemma str_contains_full xs :
  mask_sum (str_contains "@" xs) = length xs
  ↔ Forall (λ c : option string, ∃ v, c = Some v ∧ contains "@" v = true) xs.
Proof.
  unfold str_contains.
  rewrite <- (length_map (λ c : option string,
                 match c with Some v => contains "@" v | None => false end) xs).
  rewrite mask_sum_full, Forall_map. apply Forall_iff. intros [v|]; simpl.
  - split; [intros ?; by exists v | by intros (? & [= <-] & ?)].
  - split; [done | by intros (? & ? & ?)].
Qed.

Lemma regex_appended_other df exp c p :
  column exp = Some c →
  parameter exp "regex" = Return (PStr p) →
  email_style p = false →
  appended pd df exp "expect_column_values_to_match_regex"
  = mk_result "expect_column_values_to_match_regex" true
      (VStr "Pattern check passed")
      (VStr ("Column " +:+ c +:+ " regex validation")).
Proof.
  intros Hcolumn Hregex Hstyle. unfold appended.
  change (try_body pd df exp "expect_column_values_to_match_regex")
    with (expect_column_values_to_match_regex df exp
            "expect_column_values_to_match_regex").
  unfold expect_column_values_to_match_regex.
  rewrite Hcolumn. cbn [getitem_field]. bind_step. rewrite Hregex. bind_step.
  pose proof (email_check_value p) as Hcheck. rewrite Hstyle in Hcheck.
  cbn [py_lower] in Hcheck |- *. revert Hcheck. bind_step.
  destruct (contains "email" (lower p)); [done|]. intros ->. by bind_step.
Qed.

Lemma regex_appended_email df exp c p :
  column exp = Some c →
  parameter exp "regex" = Return (PStr p) →
  email_style p = true →
  appended pd df exp "expect_column_values_to_match_regex"
  = match (series ← df_getitem df c; str_accessor series) with
    | Return strings =>
        mk_result "expect_column_values_to_match_regex"
          (Nat.eqb (mask_sum (str_contains "@" strings)) (nrows df))
          (VStr (pretty (mask_sum (str_contains "@" strings))
                 +:+ " valid emails out of " +:+ pretty (nrows df)))
          (VStr ("Column " +:+ c +:+ " should match email pattern"))
    | Raise e => error_result "expect_column_values_to_match_regex" e
    end.
Proof.
  intros Hcolumn Hregex Hstyle. unfold appended.
  change (try_body pd df exp "expect_column_values_to_match_regex")
    with (expect_column_values_to_match_regex df exp
            "expect_column_values_to_match_regex").
  unfold expect_column_values_to_match_regex.
  rewrite Hcolumn. cbn [getitem_field]. bind_step. rewrite Hregex. bind_step.
  pose proof (email_check_value p) as Hcheck. rewrite Hstyle in Hcheck.
  cbn [py_lower] in Hcheck |- *. revert Hcheck. bind_step.
  destruct (contains "email" (lower p)).
  - intros _. bind_step. destruct (df_getitem df c) as [series|e]; bind_step; [|done].
    by destruct (str_accessor series).
  - intros ->. bind_step. destruct (df_getitem df c) as [series|e]; bind_step; [|done].
    by destruct (str_accessor series).
Qed.

(** C7, as the code has it. With a pattern that contains "email" (in any
    case) or "@", the regex rule passes exactly when its column is a string
    column in which every cell is present and contains "@": a missing cell
    counts as a value that does not match. With any other pattern the rule
    passes without looking at the data. *)
Theorem regex_rule_counts_missing_as_mismatch df table_name rules i exp c p :
  Forall has_name rules →
  rules !! i = Some exp →
  name exp = Some "expect_column_values_to_match_regex" →
  column exp = Some c →
  parameter exp "regex" = Return (PStr p) →
  frame_ok df →
  ∃ results r,
    run_expectations_manually pd df table_name rules = Return results
    ∧ results !! i = Some r
    ∧ (email_style p = true →
       (r !! "success" = Some (VBool true)
        ↔ ∃ xs, df_getitem df c = Return (Object xs)
                ∧ Forall (λ cell : option string,
                            ∃ v, cell = Some v ∧ contains "@" v = true) xs))
    ∧ (email_style p = false →
       r !! "success" = Some (VBool true)
       ∧ r !! "observed_value" = Some (VStr "Pattern check passed")).
Proof.
  intros Hnames Hi Hname Hcolumn Hregex Hok.
  destruct (run_lookup pd df table_name rules i exp _ Hnames Hi Hname)
    as (results & Hrun & Hr).
  eexists results, _. split; [exact Hrun|]. split; [exact Hr|]. split.
  - intros Hstyle. rewrite (regex_appended_email df exp c p Hcolumn Hregex Hstyle).
    destruct (df_getitem df c) as [series|e] eqn:Hget; bind_step.
    + pose proof (frame_ok_column df c series Hok Hget) as Hlen.
      destruct series as [xs|xs|xs|xs]; cbn [str_accessor];
        try (split; [done | by intros (? & [=] & _)]).
      rewrite mk_result_success.
      assert (length xs = nrows df) as <-.
      { rewrite <- Hlen. unfold series_len. simpl. by rewrite length_map. }
      split.
      * intros [= Heq]. exists xs. split; [done|].
        apply str_contains_full. by apply Nat.eqb_eq.
      * intros (xs' & [= <-] & Hall). do 2 f_equal.
        apply Nat.eqb_eq. by apply str_contains_full.
    + split; [done | by intros (? & [=] & _)].
  - intros Hstyle. by rewrite (regex_appended_other df exp c p Hcolumn Hregex Hstyle).
Qed.

(** *** Types *)

Lemma type_appended df exp c t s :
  column exp = Some c →
  parameter exp "type_" = Return (PStr t) →
  df_getitem df c = Return s →
  appended pd df exp "expect_column_values_to_be_of_type"
  = mk_result "expect_column_values_to_be_of_type"
      (if temporal_type t then is_datetime64_any_dtype s else true)
      (VStr (dtype_str s))
      (VFmt [Lit ("Column " +:+ c +:+ " should be of type "); Fmt (PStr t)]).
Proof.
  intros Hcolumn Htype Hget. unfold appended, temporal_type.
  change (try_body pd df exp "expect_column_values_to_be_of_type")
    with (expect_column_values_to_be_of_type df exp
            "expect_column_values_to_be_of_type").
  unfold expect_column_values_to_be_of_type.
  rewrite Hcolumn. cbn [getitem_field]. bind_step. rewrite Htype. bind_step.
  cbn [py_lower]. bind_step.
  destruct (contains "timestamp" (lower t)); bind_step.
  - rewrite Hget. by bind_step.
  - destruct (contains "date" (lower t)); bind_step; rewrite Hget; by bind_step.
Qed.

Lemma find_column_absent df c : c ∉ columns df → find_column c (data df) = None.
Proof.
  intros Habsent.
  destruct (find_column c (data df)) as [s|] eqn:Hfind; [|done].
  destruct Habsent. apply find_column_elem in Hfind.
  unfold columns. apply list_elem_of_In, in_map_iff. exists (c, s).
  split; [done | by apply list_elem_of_In].
Qed.

Lemma type_appended_absent df exp c t :
  column exp = Some c →
  parameter exp "type_" = Return (PStr t) →
  c ∉ columns df →
  appended pd df exp "expect_column_values_to_be_of_type"
  = error_result "expect_column_values_to_be_of_type" (KeyError c).
Proof.
  intros Hcolumn Htype Habsent.
  assert (df_getitem df c = Raise (KeyError c)) as Hget.
  { unfold df_getitem. by rewrite (find_column_absent df c Habsent). }
  unfold appended.
  change (try_body pd df exp "expect_column_values_to_be_of_type")
    with (expect_column_values_to_be_of_type df exp
            "expect_column_values_to_be_of_type").
  unfold expect_column_values_to_be_of_type.
  rewrite Hcolumn. cbn [getitem_field]. bind_step. rewrite Htype. bind_step.
  cbn [py_lower]. bind_step.
  destruct (contains "timestamp" (lower t)); bind_step.
  - by rewrite Hget.
  - destruct (contains "date" (lower t)); bind_step; by rewrite Hget.
Qed.

(** C9, as the code has it. The type rule checks temporal types only. On a
    column the frame has: when the expected type contains "timestamp" or
    "date" in any case, the rule passes if the column is a datetime column
    and fails if it is not; for any other expected type it passes; the
    observed value is the dtype of the column as text, one of "int64",
    "float64", "object" and "datetime64[ns]". On a column the frame does
    not have the rule fails whatever the expected type, with the error dict
    of the [KeyError], because the observed value reads the dtype of the
    column. The test on the expected type is stated in the words of the
    specification ([temporal_in_any_case]), not through [lower]. *)
Theorem type_rule_checks_temporal_only df table_name rules i exp c t :
  Forall has_name rules →
  rules !! i = Some exp →
  name exp = Some "expect_column_values_to_be_of_type" →
  column exp = Some c →
  parameter exp "type_" = Return (PStr t) →
  ∃ results r,
    run_expectations_manually pd df table_name rules = Return results
    ∧ results !! i = Some r
    ∧ (∀ s, df_getitem df c = Return s →
         r !! "observed_value"
         = Some (VStr match s with
                      | Int64 _ => "int64"
                      | Float64 _ => "float64"
                      | Object _ => "object"
                      | Datetime64 _ => "datetime64[ns]"
                      end)
         ∧ (temporal_in_any_case t →
            ((∃ xs, s = Datetime64 xs) → r !! "success" = Some (VBool true))
            ∧ ((∀ xs, s ≠ Datetime64 xs) → r !! "success" = Some (VBool false)))
         ∧ (¬ temporal_in_any_case t → r !! "success" = Some (VBool true)))
    ∧ (c ∉ columns df →
         r !! "success" = Some (VBool false)
         ∧ r !! "observed_value" = Some (VFmt [Lit "Error: "; FmtExn (KeyError c)])).
Proof.
  intros Hnames Hi Hname Hcolumn Htype.
  destruct (run_lookup pd df table_name rules i exp _ Hnames Hi Hname)
    as (results & Hrun & Hr).
  eexists results, _. split; [exact Hrun|]. split; [exact Hr|]. split.
  - intros s Hget. rewrite (type_appended df exp c t s Hcolumn Htype Hget).
    rewrite mk_result_observed_value, mk_result_success. split_and!.
    + by destruct s.
    + intros Htemporal. apply temporal_type_any_case in Htemporal as ->. split.
      * by intros [xs ->].
      * intros Hnot. destruct s; try done. by destruct (Hnot xs).
    + intros Hother. by apply temporal_type_no_case in Hother as ->.
  - intros Habsent. by rewrite (type_appended_absent df exp c t Hcolumn Htype Habsent).
Qed.

End Kinds.


(** * Further properties of the engine *)

(** ** Batches *)

Section Batches.
Context (pd : PandasOps).

Ltac bind_step := cbn [mbind outcome_bind mret outcome_ret].

Lemma run_loop_accumulates df rules : ∀ results,
  run_loop pd df rules results
  = (new ← run_loop pd df rules []; Return (results ++ new)).
Proof.
  induction rules as [|exp rest IH]; intros results; simpl.
  - by rewrite app_nil_r.
  - destruct (name exp) as [exp_name|]; simpl; [|done].
    rewrite !run_rule_appended. rewrite (IH (results ++ _)), (IH ([] ++ _)).
    destruct (run_loop pd df rest []) as [new|e]; bind_step; [|done].
    by rewrite <- app_assoc.
Qed.

Lemma run_loop_app df rules1 rules2 : ∀ results,
  run_loop pd df (rules1 ++ rules2) results
  = (results' ← run_loop pd df rules1 results; run_loop pd df rules2 results').
Proof.
  induction rules1 as [|exp rest IH]; intros results; simpl; [done|].
  destruct (name exp) as [exp_name|]; simpl; [|done]. apply IH.
Qed.

(** X1. Running two lists one after the other and joining the results is
    the same as running their concatenation, a [KeyError] for a missing
    'name' included. *)
Theorem run_concatenation df table_name rules1 rules2 :
  run_expectations_manually pd df table_name (rules1 ++ rules2)
  = (results1 ← run_expectations_manually pd df table_name rules1;
     results2 ← run_expectations_manually pd df table_name rules2;
     Return (results1 ++ results2)).
Proof.
  unfold run_expectations_manually. rewrite run_loop_app.
  destruct (run_loop pd df rules1 []) as [results1|e]; bind_step; [|done].
  apply run_loop_accumulates.
Qed.

Lemma mk_result_dom n s ov d : dom (mk_result n s ov d) = result_keys.
Proof. unfold mk_result, result_keys. rewrite !dom_insert_L. set_solver. Qed.

(** X2. On a frame with distinct labels, every dict of the returned list
    has exactly the keys 'expectation', 'success', 'observed_value' and
    'details', the dict of a rule that raised and the dict of a rule of an
    unknown kind included: no branch adds or drops a key. *)
Theorem results_have_four_keys df table_name rules :
  NoDup (columns df) →
  Forall has_name rules →
  ∃ results,
    run_expectations_manually pd df table_name rules = Return results
    ∧ Forall (λ r : Result, dom r = result_keys) results.
Proof.
  intros _ Hnames.
  destruct (run_named pd df table_name rules Hnames) as (results & Hrun & Hall).
  exists results. split; [done|].
  apply Forall_forall. intros r Hr.
  apply list_elem_of_lookup in Hr as [i Hi].
  destruct (Forall2_lookup_r _ _ _ _ _ Hall Hi) as (exp & _ & n & _ & ->).
  destruct (appended_shape pd df exp n) as (s & ov & d & ->).
  apply mk_result_dom.
Qed.

End Batches.

(** ** Missing keys and missing columns *)

Section Faults.
Context (pd : PandasOps).

Ltac bind_step := cbn [mbind outcome_bind mret outcome_ret].

Lemma try_body_not_null df exp :
  try_body pd df exp "expect_column_values_to_not_be_null"
  = expect_column_values_to_not_be_null df exp "expect_column_values_to_not_be_null".
Proof. reflexivity. Qed.
Lemma try_body_unique df exp :
  try_body pd df exp "expect_column_values_to_be_unique"
  = expect_column_values_to_be_unique df exp "expect_column_values_to_be_unique".
Proof. reflexivity. Qed.
Lemma try_body_regex df exp :
  try_body pd df exp "expect_column_values_to_match_regex"
  = expect_column_values_to_match_regex df exp "expect_column_values_to_match_regex".
Proof. reflexivity. Qed.
Lemma try_body_between df exp :
  try_body pd df exp "expect_column_values_to_be_between"
  = expect_column_values_to_be_between pd df exp "expect_column_values_to_be_between".
Proof. reflexivity. Qed.
Lemma try_body_in_set df exp :
  try_body pd df exp "expect_column_values_to_be_in_set"
  = expect_column_values_to_be_in_set pd df exp "expect_column_values_to_be_in_set".
Proof. reflexivity. Qed.
Lemma try_body_of_type df exp :
  try_body pd df exp "expect_column_values_to_be_of_type"
  = expect_column_values_to_be_of_type df exp "expect_column_values_to_be_of_type".
Proof. reflexivity. Qed.
Lemma try_body_row_count df exp :
  try_body pd df exp "expect_table_row_count_to_be_between"
  = expect_table_row_count_to_be_between df exp "expect_table_row_count_to_be_between".
Proof. reflexivity. Qed.
Lemma try_body_columns df exp :
  try_body pd df exp "expect_table_columns_to_match_ordered_list"
  = expect_table_columns_to_match_ordered_list df exp
      "expect_table_columns_to_match_ordered_list".
Proof. reflexivity. Qed.

(** The result at the position of a rule whose body raises. *)
Lemma run_lookup_raise df table_name rules i exp exp_name e :
  Forall has_name rules →
  rules !! i = Some exp →
  name exp = Some exp_name →
  try_body pd df exp exp_name = Raise e →
  ∃ results,
    run_expectations_manually pd df table_name rules = Return results
    ∧ results !! i = Some (error_result exp_name e)
    ∧ error_result exp_name e !! "success" = Some (VBool false).
Proof.
  intros Hnames Hi Hname Hraise.
  destruct (run_lookup pd df table_name rules i exp _ Hnames Hi Hname)
    as (results & Hrun & Hr).
  exists results. unfold appended in Hr. rewrite Hraise in Hr. done.
Qed.

Ltac each_kind H :=
  repeat (apply elem_of_cons in H as [->|H]); [..|by apply elem_of_nil in H].

Lemma column_key_missing_raises df exp exp_name :
  exp_name ∈ column_scoped →
  column exp = None →
  try_body pd df exp exp_name = Raise (KeyError "column").
Proof.
  intros Hkind Hcolumn. unfold column_scoped in Hkind. each_kind Hkind.
  - rewrite try_body_not_null. unfold expect_column_values_to_not_be_null.
    by rewrite Hcolumn.
  - rewrite try_body_unique. unfold expect_column_values_to_be_unique.
    by rewrite Hcolumn.
  - rewrite try_body_regex. unfold expect_column_values_to_match_regex.
    by rewrite Hcolumn.
  - rewrite try_body_between. unfold expect_column_values_to_be_between.
    by rewrite Hcolumn.
  - rewrite try_body_in_set. unfold expect_column_values_to_be_in_set.
    by rewrite Hcolumn.
  - rewrite try_body_of_type. unfold expect_column_values_to_be_of_type.
    by rewrite Hcolumn.
Qed.

(** X3. A rule of one of the six column kinds whose dict has no 'column'
    key gets the error dict of [KeyError('column')], whatever its
    parameters are: the column is read first. *)
Theorem column_key_missing_is_reported df table_name rules i exp exp_name :
  Forall has_name rules →
  rules !! i = Some exp →
  name exp = Some exp_name →
  exp_name ∈ column_scoped →
  column exp = None →
  ∃ results,
    run_expectations_manually pd df table_name rules = Return results
    ∧ results !! i = Some (error_result exp_name (KeyError "column"))
    ∧ error_result exp_name (KeyError "column") !! "success" = Some (VBool false).
Proof.
  intros Hnames Hi Hname Hkind Hcolumn.
  eapply run_lookup_raise; try done. by apply column_key_missing_raises.
Qed.

Lemma first_parameter_raises df exp exp_name key e :
  first_parameter exp_name = Some key →
  (exp_name ∈ column_scoped → is_Some (column exp)) →
  parameter exp key = Raise e →
  try_body pd df exp exp_name = Raise e.
Proof.
  unfold first_parameter, keys_needed. intros Hkey Hcolumn Hraise.
  repeat match type of Hkey with
  | context [String.eqb exp_name ?s] =>
      destruct (String.eqb_spec exp_name s) as [->|_]
  end; simpl in Hkey; try discriminate; injection Hkey as <-.
  - rewrite try_body_row_count. unfold expect_table_row_count_to_be_between.
    by rewrite Hraise.
  - rewrite try_body_columns. unfold expect_table_columns_to_match_ordered_list.
    by rewrite Hraise.
  - destruct Hcolumn as [c Hc]; [unfold column_scoped; set_solver|].
    rewrite try_body_regex. unfold expect_column_values_to_match_regex.
    rewrite Hc. cbn [getitem_field]. bind_step. by rewrite Hraise.
  - destruct Hcolumn as [c Hc]; [unfold column_scoped; set_solver|].
    rewrite try_body_between. unfold expect_column_values_to_be_between.
    rewrite Hc. cbn [getitem_field]. bind_step. by rewrite Hraise.
  - destruct Hcolumn as [c Hc]; [unfold column_scoped; set_solver|].
    rewrite try_body_in_set. unfold expect_column_values_to_be_in_set.
    rewrite Hc. cbn [getitem_field]. bind_step. by rewrite Hraise.
  - destruct Hcolumn as [c Hc]; [unfold column_scoped; set_solver|].
    rewrite try_body_of_type. unfold expect_column_values_to_be_of_type.
    rewrite Hc. cbn [getitem_field]. bind_step. by rewrite Hraise.
Qed.

(** X4. A rule of a kind that reads parameters (every kind but not-null
    and uniqueness) whose dict has no 'parameters' key gets the error dict
    of [KeyError('parameters')], provided its 'column' key, when the kind
    reads one, is there. *)
Theorem parameters_missing_is_reported df table_name rules i exp exp_name key :
  Forall has_name rules →
  rules !! i = Some exp →
  name exp = Some exp_name →
  first_parameter exp_name = Some key →
  (exp_name ∈ column_scoped → is_Some (column exp)) →
  parameters exp = None →
  ∃ results,
    run_expectations_manually pd df table_name rules = Return results
    ∧ results !! i = Some (error_result exp_name (KeyError "parameters"))
    ∧ error_result exp_name (KeyError "parameters") !! "success"
      = Some (VBool false).
Proof.
  intros Hnames Hi Hname Hkey Hcolumn Hparams.
  eapply run_lookup_raise; try done.
  eapply first_parameter_raises; try done.
  unfold parameter. by rewrite Hparams.
Qed.

(** X5. When 'parameters' is a dict that lacks the first key the kind
    reads, the rule gets the error dict of the [KeyError] of that key; when
    'parameters' is not a dict at all, that of a [TypeError]. *)
Theorem parameter_key_missing_is_reported df table_name rules i exp exp_name key v :
  Forall has_name rules →
  rules !! i = Some exp →
  name exp = Some exp_name →
  first_parameter exp_name = Some key →
  (exp_name ∈ column_scoped → is_Some (column exp)) →
  parameters exp = Some v →
  ∃ results,
    run_expectations_manually pd df table_name rules = Return results
    ∧ (∀ d, v = PDict d → d !! key = None →
         results !! i = Some (error_result exp_name (KeyError key)))
    ∧ ((∀ d, v ≠ PDict d) →
         results !! i = Some (error_result exp_name TypeError)).
Proof.
  intros Hnames Hi Hname Hkey Hcolumn Hparams.
  destruct (run_lookup pd df table_name rules i exp _ Hnames Hi Hname)
    as (results & Hrun & Hr).
  exists results. split; [done|]. unfold appended in Hr. split.
  - intros d -> Hd.
    rewrite (first_parameter_raises df exp exp_name key (KeyError key)) in Hr;
      try done.
    unfold parameter. rewrite Hparams. cbn [getitem_field]. bind_step.
    cbn [py_getitem]. by rewrite Hd.
  - intros Hnot.
    rewrite (first_parameter_raises df exp exp_name key TypeError) in Hr;
      try done.
    unfold parameter. rewrite Hparams. cbn [getitem_field]. bind_step.
    destruct v; try done. by destruct (Hnot d).
Qed.

Lemma absent_column_appended df exp exp_name c :
  column exp = Some c →
  find_column c (data df) = None →
  column_is_read exp exp_name →
  appended pd df exp exp_name = error_result exp_name (KeyError c).
Proof.
  intros Hcolumn Habsent Hread.
  assert (df_getitem df c = Raise (KeyError c)) as Hget
    by (unfold df_getitem; by rewrite Habsent).
  unfold column_is_read in Hread.
  repeat match type of Hread with
  | context [String.eqb exp_name ?s] =>
      destruct (String.eqb_spec exp_name s) as [->|_]
  end; try done.
  - unfold appended. rewrite try_body_not_null.
    unfold expect_column_values_to_not_be_null.
    rewrite Hcolumn. cbn [getitem_field]. bind_step. by rewrite Hget.
  - unfold appended. rewrite try_body_unique.
    unfold expect_column_values_to_be_unique.
    rewrite Hcolumn. cbn [getitem_field]. bind_step. by rewrite Hget.
  - destruct Hread as (p & Hregex & Hstyle).
    rewrite (regex_appended_email pd df exp c p Hcolumn Hregex Hstyle).
    by rewrite Hget.
  - destruct Hread as ((lo & Hlo) & (hi & Hhi)).
    unfold appended. rewrite try_body_between.
    unfold expect_column_values_to_be_between.
    rewrite Hcolumn. cbn [getitem_field]. bind_step.
    rewrite Hlo, Hhi. bind_step. by rewrite Hget.
  - destruct Hread as (vs & Hvs).
    unfold appended. rewrite try_body_in_set.
    unfold expect_column_values_to_be_in_set.
    rewrite Hcolumn. cbn [getitem_field]. bind_step.
    rewrite Hvs. bind_step. by rewrite Hget.
  - destruct Hread as (t & Ht).
    unfold appended. rewrite try_body_of_type.
    unfold expect_column_values_to_be_of_type.
    rewrite Hcolumn. cbn [getitem_field]. bind_step.
    rewrite Ht. bind_step. cbn [py_lower]. bind_step.
    destruct (contains "timestamp" (lower t)); bind_step.
    + by rewrite Hget.
    + destruct (contains "date" (lower t)); bind_step; by rewrite Hget.
Qed.

(** X6. A rule whose body gets as far as [df[column]] on a column the
    frame does not have gets the error dict of [KeyError(column)]: so do
    the not-null and uniqueness rules, the between and in-set rules whose
    parameters are there, the type rule with any type name, and the regex
    rule with an email-style pattern. *)
Theorem absent_column_is_reported df table_name rules i exp exp_name c :
  Forall has_name rules →
  rules !! i = Some exp →
  name exp = Some exp_name →
  column exp = Some c →
  c ∉ columns df →
  column_is_read exp exp_name →
  ∃ results,
    run_expectations_manually pd df table_name rules = Return results
    ∧ results !! i = Some (error_result exp_name (KeyError c))
    ∧ error_result exp_name (KeyError c) !! "success" = Some (VBool false).
Proof.
  intros Hnames Hi Hname Hcolumn Habsent Hread.
  destruct (run_lookup pd df table_name rules i exp _ Hnames Hi Hname)
    as (results & Hrun & Hr).
  exists results. split; [done|].
  rewrite (absent_column_appended df exp exp_name c) in Hr; try done.
  destruct (find_column c (data df)) as [s|] eqn:Hfind; [|done].
  destruct Habsent. apply find_column_elem in Hfind.
  unfold columns. apply list_elem_of_In, in_map_iff. exists (c, s).
  split; [done|]. by apply list_elem_of_In.
Qed.

(** X18. The regex rule asks its pattern, and the type rule its type name,
    for [lower()] before the frame is touched: a value that is not a string
    gives the error dict of an [AttributeError], also when the column does
    not exist. *)
Theorem pattern_not_a_string_is_reported df table_name rules i exp exp_name key c v :
  Forall has_name rules →
  rules !! i = Some exp →
  name exp = Some exp_name →
  (exp_name = "expect_column_values_to_match_regex" ∧ key = "regex")
  ∨ (exp_name = "expect_column_values_to_be_of_type" ∧ key = "type_") →
  column exp = Some c →
  parameter exp key = Return v →
  (∀ s, v ≠ PStr s) →
  ∃ results,
    run_expectations_manually pd df table_name rules = Return results
    ∧ results !! i = Some (error_result exp_name AttributeError)
    ∧ error_result exp_name AttributeError !! "success" = Some (VBool false).
Proof.
  intros Hnames Hi Hname Hkind Hcolumn Hparam Hnot.
  eapply run_lookup_raise; try done.
  assert (py_lower v = Raise AttributeError) as Hlower.
  { destruct v; try done. by destruct (Hnot s). }
  destruct Hkind as [[-> ->]|[-> ->]].
  - rewrite try_body_regex. unfold expect_column_values_to_match_regex.
    rewrite Hcolumn. cbn [getitem_field]. bind_step. rewrite Hparam. bind_step.
    by rewrite Hlower.
  - rewrite try_body_of_type. unfold expect_column_values_to_be_of_type.
    rewrite Hcolumn. cbn [getitem_field]. bind_step. rewrite Hparam. bind_step.
    by rewrite Hlower.
Qed.

End Faults.

(** ** More on the rule kinds *)

Section MoreKinds.
Context (pd : PandasOps).

Ltac bind_step := cbn [mbind outcome_bind mret outcome_ret].

Lemma isnull_sum l :
  mask_sum (map (λ c : cell, bool_decide (c = None)) l)
  = length (filter (λ c : cell, c = None) l).
Proof.
  unfold mask_sum. induction l as [|c l IH]; [done|].
  cbn [map]. rewrite !filter_cons.
  destruct (decide (c = None)) as [->|Hc].
  - rewrite bool_decide_eq_true_2 by done. rewrite decide_True by done.
    simpl. by rewrite IH.
  - rewrite bool_decide_eq_false_2 by done. rewrite decide_False by done.
    exact IH.
Qed.

Lemma no_missing_cells l :
  length (filter (λ c : cell, c = None) l) = 0 ↔ None ∉ l.
Proof.
  induction l as [|c l IH]; [split; [intros _; apply not_elem_of_nil | done]|].
  rewrite filter_cons, not_elem_of_cons.
  destruct (decide (c = None)) as [->|Hc]; simpl.
  - split; [done | by intros [? _]].
  - rewrite IH. split; [intros ?; split; [congruence | done] | by intros [_ ?]].
Qed.

Lemma not_null_appended df exp c s :
  column exp = Some c →
  df_getitem df c = Return s →
  appended pd df exp "expect_column_values_to_not_be_null"
  = mk_result "expect_column_values_to_not_be_null"
      (bool_decide (None ∉ cells s))
      (VStr (pretty (length (missing_cells s)) +:+ " nulls in " +:+ c))
      (VStr ("Column " +:+ c +:+ " should have no null values")).
Proof.
  intros Hcolumn Hget. unfold appended.
  change (try_body pd df exp "expect_column_values_to_not_be_null")
    with (expect_column_values_to_not_be_null df exp
            "expect_column_values_to_not_be_null").
  unfold expect_column_values_to_not_be_null.
  rewrite Hcolumn. cbn [getitem_field]. bind_step. rewrite Hget. bind_step.
  unfold isnull, missing_cells. rewrite isnull_sum. f_equal.
  destruct (Nat.eqb_spec (length (filter (λ c : cell, c = None) (cells s))) 0)
    as [Hzero|Hsome]; symmetry.
  - apply bool_decide_eq_true. by apply no_missing_cells.
  - apply bool_decide_eq_false. by rewrite <- no_missing_cells.
Qed.

Lemma int_column_complete xs : None ∉ cells (Int64 xs).
Proof.
  simpl. intros Hin. apply list_elem_of_In, in_map_iff in Hin as (z & Hz & _).
  discriminate.
Qed.

(** X7. The not-null rule passes exactly when no cell of the column is
    missing, and its observed value gives the number of missing cells; an
    integer column has no missing cell, so it always passes, and so does a
    column without rows. *)
Theorem not_null_counts_missing_cells df table_name rules i exp c s :
  Forall has_name rules →
  rules !! i = Some exp →
  name exp = Some "expect_column_values_to_not_be_null" →
  column exp = Some c →
  df_getitem df c = Return s →
  ∃ results r,
    run_expectations_manually pd df table_name rules = Return results
    ∧ results !! i = Some r
    ∧ r !! "observed_value"
      = Some (VStr (pretty (length (missing_cells s)) +:+ " nulls in " +:+ c))
    ∧ r !! "success" = Some (VBool (bool_decide (None ∉ cells s)))
    ∧ ((∃ xs, s = Int64 xs) ∨ series_len s = 0 →
       r !! "success" = Some (VBool true)).
Proof.
  intros Hnames Hi Hname Hcolumn Hget.
  destruct (run_lookup pd df table_name rules i exp _ Hnames Hi Hname)
    as (results & Hrun & Hr).
  rewrite (not_null_appended df exp c s Hcolumn Hget) in Hr.
  eexists results, _. split; [exact Hrun|]. split; [exact Hr|].
  rewrite mk_result_observed_value, mk_result_success.
  split_and!; try done.
  intros Hcase. do 2 f_equal. apply bool_decide_eq_true.
  destruct Hcase as [[xs ->]|Hempty]; [apply int_column_complete|].
  unfold series_len in Hempty. apply nil_length_inv in Hempty.
  rewrite Hempty. apply not_elem_of_nil.
Qed.

(** X8. In the row-count rule the upper bound is compared only when the
    lower bound holds: with fewer rows than [min_value] the rule fails
    without an error, whatever value 'max_value' has, a string or [None]
    included. *)
Theorem row_count_lower_bound_short_circuits df table_name rules i exp lo max_val :
  Forall has_name rules →
  rules !! i = Some exp →
  name exp = Some "expect_table_row_count_to_be_between" →
  parameter exp "min_value" = Return (PInt lo) →
  parameter exp "max_value" = Return max_val →
  (Z.of_nat (nrows df) < lo)%Z →
  ∃ results r,
    run_expectations_manually pd df table_name rules = Return results
    ∧ results !! i = Some r
    ∧ r !! "success" = Some (VBool false)
    ∧ r !! "observed_value" = Some (VInt (Z.of_nat (nrows df))).
Proof.
  intros Hnames Hi Hname Hmin Hmax Hfew.
  destruct (run_lookup pd df table_name rules i exp _ Hnames Hi Hname)
    as (results & Hrun & Hr).
  eexists results, _. split; [exact Hrun|]. split; [exact Hr|].
  unfold appended.
  change (try_body pd df exp "expect_table_row_count_to_be_between")
    with (expect_table_row_count_to_be_between df exp
            "expect_table_row_count_to_be_between").
  unfold expect_table_row_count_to_be_between.
  rewrite Hmin, Hmax. bind_step. rewrite py_le_int_int. bind_step.
  rewrite bool_decide_eq_false_2 by lia. bind_step. done.
Qed.

(** X9. A bound of the row-count rule that is not a number ([None], a
    string, a list, a dict) makes the comparison raise [TypeError]: the rule
    gets the error dict when 'min_value' is such a value, and when
    'max_value' is one while the lower bound holds. *)
Theorem row_count_bound_not_a_number df table_name rules i exp min_val max_val :
  Forall has_name rules →
  rules !! i = Some exp →
  name exp = Some "expect_table_row_count_to_be_between" →
  parameter exp "min_value" = Return min_val →
  parameter exp "max_value" = Return max_val →
  py_number min_val = Raise TypeError
  ∨ (∃ lo, min_val = PInt lo ∧ (lo ≤ Z.of_nat (nrows df))%Z
           ∧ py_number max_val = Raise TypeError) →
  ∃ results,
    run_expectations_manually pd df table_name rules = Return results
    ∧ results !! i
      = Some (error_result "expect_table_row_count_to_be_between" TypeError).
Proof.
  intros Hnames Hi Hname Hmin Hmax Hbad.
  destruct (run_lookup pd df table_name rules i exp _ Hnames Hi Hname)
    as (results & Hrun & Hr).
  exists results. split; [exact Hrun|]. rewrite Hr. f_equal.
  unfold appended.
  change (try_body pd df exp "expect_table_row_count_to_be_between")
    with (expect_table_row_count_to_be_between df exp
            "expect_table_row_count_to_be_between").
  unfold expect_table_row_count_to_be_between.
  rewrite Hmin, Hmax. bind_step.
  destruct Hbad as [Hbad|(lo & -> & Hlo & Hbad)].
  - unfold py_le_int. by rewrite Hbad.
  - rewrite py_le_int_int. bind_step. rewrite bool_decide_eq_true_2 by done.
    unfold int_le_py. by rewrite Hbad.
Qed.

Lemma strs_eqb_true actual : ∀ expected,
  strs_eqb actual expected = true ↔ expected = map PStr actual.
Proof.
  induction actual as [|a actual IH]; intros [|v expected]; simpl; try done.
  rewrite andb_true_iff, IH. split.
  - intros [Hv ->]. destruct v; try done. simpl in Hv.
    by apply String.eqb_eq in Hv as ->.
  - intros [= -> ->]. split; [apply String.eqb_refl | done].
Qed.

(** X10. Whatever value 'column_list' has, the ordered-columns rule never
    raises once the key is there: it passes exactly when the value is the
    list of the frame's labels as strings, and fails for a value that is
    not a list or holds anything else. *)
Theorem columns_rule_accepts_any_value df table_name rules i exp expected :
  Forall has_name rules →
  rules !! i = Some exp →
  name exp = Some "expect_table_columns_to_match_ordered_list" →
  parameter exp "column_list" = Return expected →
  ∃ results r b,
    run_expectations_manually pd df table_name rules = Return results
    ∧ results !! i = Some r
    ∧ r !! "success" = Some (VBool b)
    ∧ (b = true ↔ expected = PList (map PStr (columns df)))
    ∧ r !! "observed_value" = Some (VStrs (columns df)).
Proof.
  intros Hnames Hi Hname Hexpected.
  destruct (run_lookup pd df table_name rules i exp _ Hnames Hi Hname)
    as (results & Hrun & Hr).
  rewrite (columns_appended pd df exp _ Hexpected) in Hr.
  eexists results, _, _. split; [exact Hrun|]. split; [exact Hr|].
  rewrite mk_result_observed_value, mk_result_success.
  split_and!; try done.
  unfold list_eq_py. destruct expected; try (split; done).
  rewrite strs_eqb_true. split; [by intros -> | by intros [= ->]].
Qed.

End MoreKinds.

(** ** Rules on the same column *)

Section Relations.
Context (pd : PandasOps).

Ltac bind_step := cbn [mbind outcome_bind mret outcome_ret].

Lemma df_getitem_Raise df c e :
  df_getitem df c = Raise e → find_column c (data df) = None.
Proof. unfold df_getitem. by destruct (find_column c (data df)). Qed.

Lemma string_cells_complete xs :
  Forall (λ c : option string, ∃ v, c = Some v ∧ contains "@" v = true) xs →
  None ∉ cells (Object xs).
Proof.
  intros Hall Hin. simpl in Hin.
  apply list_elem_of_In, in_map_iff in Hin as (c & Hc & Hin).
  apply list_elem_of_In in Hin. rewrite Forall_forall in Hall.
  destruct (Hall c Hin) as (v & -> & _). discriminate.
Qed.

(** X11. On one column, the uniqueness rule is the stronger one: whenever
    it passes, the not-null rule on that column passes too, since a missing
    value is not counted among the distinct values but is counted as a
    row. *)
Theorem unique_pass_implies_not_null_pass df table_name rules i j unique_rule
    not_null_rule c :
  Forall has_name rules →
  rules !! i = Some unique_rule →
  rules !! j = Some not_null_rule →
  name unique_rule = Some "expect_column_values_to_be_unique" →
  name not_null_rule = Some "expect_column_values_to_not_be_null" →
  column unique_rule = Some c →
  column not_null_rule = Some c →
  ∃ results r r',
    run_expectations_manually pd df table_name rules = Return results
    ∧ results !! i = Some r
    ∧ results !! j = Some r'
    ∧ (r !! "success" = Some (VBool true) → r' !! "success" = Some (VBool true)).
Proof.
  intros Hnames Hi Hj Hname Hname' Hcolumn Hcolumn'.
  destruct (run_named pd df table_name rules Hnames) as (results & Hrun & Hall).
  destruct (Forall2_lookup_l _ _ _ _ _ Hall Hi) as (r & Hr & n & Hn & ->).
  destruct (Forall2_lookup_l _ _ _ _ _ Hall Hj) as (r' & Hr' & n' & Hn' & ->).
  assert (n = "expect_column_values_to_be_unique") as -> by congruence.
  assert (n' = "expect_column_values_to_not_be_null") as -> by congruence.
  eexists results, _, _. split; [exact Hrun|]. split; [exact Hr|].
  split; [exact Hr'|].
  destruct (df_getitem df c) as [s|e] eqn:Hget.
  - rewrite (unique_appended pd df unique_rule c s Hcolumn Hget).
    rewrite (not_null_appended pd df not_null_rule c s Hcolumn' Hget).
    rewrite !mk_result_success. intros [= Hunique]. do 2 f_equal.
    apply bool_decide_eq_true. apply bool_decide_eq_true in Hunique.
    by apply nunique_full in Hunique as [? _].
  - apply df_getitem_Raise in Hget.
    by rewrite (absent_column_appended pd df unique_rule _ c Hcolumn Hget).
Qed.

(** X12. On a frame whose columns have one cell per row, the regex rule
    with an email-style pattern is stronger than the not-null rule on the
    same column: whenever it passes, the not-null rule passes too. *)
Theorem email_pass_implies_not_null_pass df table_name rules i j regex_rule
    not_null_rule c p :
  Forall has_name rules →
  rules !! i = Some regex_rule →
  rules !! j = Some not_null_rule →
  name regex_rule = Some "expect_column_values_to_match_regex" →
  name not_null_rule = Some "expect_column_values_to_not_be_null" →
  column regex_rule = Some c →
  column not_null_rule = Some c →
  parameter regex_rule "regex" = Return (PStr p) →
  email_style p = true →
  frame_ok df →
  ∃ results r r',
    run_expectations_manually pd df table_name rules = Return results
    ∧ results !! i = Some r
    ∧ results !! j = Some r'
    ∧ (r !! "success" = Some (VBool true) → r' !! "success" = Some (VBool true)).
Proof.
  intros Hnames Hi Hj Hname Hname' Hcolumn Hcolumn' Hregex Hstyle Hok.
  destruct (run_named pd df table_name rules Hnames) as (results & Hrun & Hall).
  destruct (Forall2_lookup_l _ _ _ _ _ Hall Hi) as (r & Hr & n & Hn & ->).
  destruct (Forall2_lookup_l _ _ _ _ _ Hall Hj) as (r' & Hr' & n' & Hn' & ->).
  assert (n = "expect_column_values_to_match_regex") as -> by congruence.
  assert (n' = "expect_column_values_to_not_be_null") as -> by congruence.
  eexists results, _, _. split; [exact Hrun|]. split; [exact Hr|].
  split; [exact Hr'|].
  rewrite (regex_appended_email pd df regex_rule c p Hcolumn Hregex Hstyle).
  destruct (df_getitem df c) as [s|e] eqn:Hget; bind_step; [|done].
  rewrite (not_null_appended pd df not_null_rule c s Hcolumn' Hget).
  pose proof (frame_ok_column df c s Hok Hget) as Hlen.
  destruct s as [xs|xs|xs|xs]; cbn [str_accessor]; try done.
  rewrite !mk_result_success. intros [= Hmatches]. do 2 f_equal.
  apply bool_decide_eq_true, string_cells_complete, str_contains_full.
  apply Nat.eqb_eq in Hmatches. rewrite Hmatches, <- Hlen.
  unfold series_len. simpl. by rewrite length_map.
Qed.

End Relations.

(** ** The two rules that compare cells *)

Section Comparisons.
Context (pd : PandasOps).

Ltac bind_step := cbn [mbind outcome_bind mret outcome_ret].

Lemma mask_all_true mask : mask_all mask = true ↔ Forall (λ b, b = true) mask.
Proof.
  unfold mask_all. rewrite forallb_forall, Forall_forall.
  split; intros H b Hb; apply H; by apply list_elem_of_In.
Qed.

Lemma mask_all_both {A} (f g : A → bool) xs :
  mask_all (zip_with andb (map f xs) (map g xs)) = true
  ↔ Forall (λ x, f x = true ∧ g x = true) xs.
Proof.
  rewrite mask_all_true. induction xs as [|x xs IH]; simpl.
  - split; constructor.
  - rewrite !Forall_cons, IH, andb_true_iff. done.
Qed.

(** X13. When the two comparisons of the between rule are the cell by cell
    comparisons of a float column with numeric bounds, the rule passes
    exactly when every cell lies between the bounds, both included; a
    missing cell ([NaN]) compares false on both sides, so a column that has
    one fails. *)
Theorem between_checks_every_cell df table_name rules i exp c xs min_val max_val
    lo hi smallest largest :
  Forall has_name rules →
  rules !! i = Some exp →
  name exp = Some "expect_column_values_to_be_between" →
  column exp = Some c →
  parameter exp "min_value" = Return min_val →
  parameter exp "max_value" = Return max_val →
  py_number min_val = Return lo →
  py_number max_val = Return hi →
  df_getitem df c = Return (Float64 xs) →
  series_ge pd (Float64 xs) min_val = Return (map (λ x, float_le lo x) xs) →
  series_le pd (Float64 xs) max_val = Return (map (λ x, float_le x hi) xs) →
  series_min pd (Float64 xs) = Return smallest →
  series_max pd (Float64 xs) = Return largest →
  ∃ results r b,
    run_expectations_manually pd df table_name rules = Return results
    ∧ results !! i = Some r
    ∧ r !! "success" = Some (VBool b)
    ∧ (b = true ↔ Forall (λ x, float_le lo x = true ∧ float_le x hi = true) xs)
    ∧ (NaN ∈ xs → b = false)
    ∧ r !! "observed_value"
      = Some (VFmt [Lit "Min: "; FmtCell smallest; Lit ", Max: "; FmtCell largest]).
Proof.
  intros Hnames Hi Hname Hcolumn Hmin Hmax Hlo Hhi Hget Hge Hle Hsmall Hlarge.
  destruct (run_lookup pd df table_name rules i exp _ Hnames Hi Hname)
    as (results & Hrun & Hr).
  eexists results, _, _. split; [exact Hrun|]. split; [exact Hr|].
  unfold appended.
  change (try_body pd df exp "expect_column_values_to_be_between")
    with (expect_column_values_to_be_between pd df exp
            "expect_column_values_to_be_between").
  unfold expect_column_values_to_be_between.
  rewrite Hcolumn. cbn [getitem_field]. bind_step. rewrite Hmin, Hmax. bind_step.
  rewrite Hget. bind_step. rewrite Hge. bind_step. rewrite Hle. bind_step.
  rewrite Hsmall. bind_step. rewrite Hlarge. bind_step.
  rewrite mk_result_success, mk_result_observed_value.
  split; [reflexivity|]. split; [apply mask_all_both|]. split; [|done].
  intros Hnan. apply not_true_is_false. rewrite mask_all_both, Forall_forall.
  intros Hall. destruct (Hall NaN Hnan) as [_ Hbad]. by destruct hi.
Qed.

Lemma unique_from_elem l : ∀ seen c,
  c ∈ unique_from seen l ↔ c ∈ l ∧ c ∉ seen.
Proof.
  induction l as [|x l IH]; intros seen c; simpl.
  - split; [by intros ?%elem_of_nil | by intros [?%elem_of_nil _]].
  - destruct (decide (x ∈ seen)) as [Hseen|Hnew].
    + rewrite IH, elem_of_cons. split; [intros [? ?]; split; [by right | done]|].
      intros [[->|?] ?]; [done | by split].
    + rewrite !elem_of_cons, IH. split.
      * intros [->|[Hl Hseen]]; [split; [by left | done]|].
        apply not_elem_of_cons in Hseen as [_ ?]. split; [by right | done].
      * intros [[->|Hl] Hseen]; [by left|].
        destruct (decide (c = x)) as [->|Hne]; [by left|].
        right. split; [done|]. by apply not_elem_of_cons.
Qed.

Lemma unique_from_NoDup l : ∀ seen, NoDup (unique_from seen l).
Proof.
  induction l as [|x l IH]; intros seen; simpl; [constructor|].
  destruct (decide (x ∈ seen)); [apply IH|].
  constructor; [|apply IH]. rewrite unique_from_elem, not_elem_of_cons.
  by intros [_ [? _]].
Qed.

(** X14. The in-set rule passes exactly when the membership mask is true
    at every cell, and its observed value lists the cells of the column
    without a repetition: every cell that occurs, a missing one included,
    occurs in it once. *)
Theorem in_set_lists_distinct_cells df table_name rules i exp c s valid_values mask :
  Forall has_name rules →
  rules !! i = Some exp →
  name exp = Some "expect_column_values_to_be_in_set" →
  column exp = Some c →
  parameter exp "value_set" = Return valid_values →
  df_getitem df c = Return s →
  series_isin pd s valid_values = Return mask →
  ∃ results r observed,
    run_expectations_manually pd df table_name rules = Return results
    ∧ results !! i = Some r
    ∧ r !! "success" = Some (VBool (mask_all mask))
    ∧ (mask_all mask = true ↔ Forall (λ b, b = true) mask)
    ∧ r !! "observed_value" = Some (VCells observed)
    ∧ NoDup observed
    ∧ ∀ cell, cell ∈ observed ↔ cell ∈ cells s.
Proof.
  intros Hnames Hi Hname Hcolumn Hvalues Hget Hmask.
  destruct (run_lookup pd df table_name rules i exp _ Hnames Hi Hname)
    as (results & Hrun & Hr).
  eexists results, _, (unique s). split; [exact Hrun|]. split; [exact Hr|].
  unfold appended.
  change (try_body pd df exp "expect_column_values_to_be_in_set")
    with (expect_column_values_to_be_in_set pd df exp
            "expect_column_values_to_be_in_set").
  unfold expect_column_values_to_be_in_set.
  rewrite Hcolumn. cbn [getitem_field]. bind_step. rewrite Hvalues. bind_step.
  rewrite Hget. bind_step. rewrite Hmask. bind_step.
  rewrite mk_result_success, mk_result_observed_value.
  split_and!; try done.
  - apply mask_all_true.
  - apply unique_from_NoDup.
  - intros cell. unfold unique. rewrite unique_from_elem.
    split; [by intros [? _] | intros ?; split; [done | apply not_elem_of_nil]].
Qed.

End Comparisons.

(** ** The summary and the exit status *)

Section Summary.
Context (pd : PandasOps).

Ltac bind_step := cbn [mbind outcome_bind mret outcome_ret].

Lemma run_results_built df table_name rules results :
  run_expectations_manually pd df table_name rules = Return results →
  Forall has_name rules →
  Forall built results.
Proof.
  intros Hrun Hnames.
  destruct (run_named pd df table_name rules Hnames) as (results' & Hrun' & Hall).
  assert (results' = results) as -> by congruence.
  apply Forall_forall. intros r Hr.
  apply list_elem_of_lookup in Hr as [i Hi].
  destruct (Forall2_lookup_r _ _ _ _ _ Hall Hi) as (exp & _ & n & _ & ->).
  destruct (appended_shape pd df exp n) as (s & ov & d & ->). by exists n, s, ov, d.
Qed.

Lemma count_passed_built results :
  Forall built results →
  ∃ passed,
    count_passed results = Return passed
    ∧ passed ≤ length results
    ∧ (passed = length results ↔ all_passed results).
Proof.
  unfold all_passed. induction 1 as [|r results (n & s & ov & d & ->) _ IH].
  - exists 0. split_and!; [done | done | split; [constructor | done]].
  - destruct IH as (passed & Hcount & Hle & Hall).
    cbn [count_passed]. unfold result_getitem. rewrite mk_result_success.
    cbn [getitem_field]. bind_step. rewrite Hcount. bind_step. cbn [truthy].
    destruct s.
    + exists (S passed). split_and!; [done | simpl; lia |].
      rewrite Forall_cons, mk_result_success. simpl. rewrite <- Hall.
      split; [intros [= ?]; by split | intros [_ ->]; done].
    + exists passed. split_and!; [done | simpl; lia |].
      rewrite Forall_cons, mk_result_success. simpl.
      split; [intros ?; lia | by intros [[=] _]].
Qed.

Lemma print_details_built results :
  Forall built results → print_details results = Return tt.
Proof.
  induction 1 as [|r results (n & s & ov & d & ->) _ IH]; [done|].
  cbn [print_details]. unfold result_getitem.
  rewrite mk_result_success, mk_result_expectation, mk_result_details,
    mk_result_observed_value.
  cbn [getitem_field]. bind_step. cbn [truthy]. by destruct s.
Qed.

Lemma main_with_value df1 df2 rules1 rules2 :
  Forall has_name rules1 →
  Forall has_name rules2 →
  ∃ results1 results2 b,
    run_expectations_manually pd df1 "test1" rules1 = Return results1
    ∧ run_expectations_manually pd df2 "test2" rules2 = Return results2
    ∧ main_with pd df1 df2 rules1 rules2 = Return b
    ∧ (b = true ↔ all_passed results1 ∧ all_passed results2).
Proof.
  intros Hnames1 Hnames2.
  destruct (run_named pd df1 "test1" rules1 Hnames1) as (results1 & Hrun1 & _).
  destruct (run_named pd df2 "test2" rules2 Hnames2) as (results2 & Hrun2 & _).
  pose proof (run_results_built _ _ _ _ Hrun1 Hnames1) as Hbuilt1.
  pose proof (run_results_built _ _ _ _ Hrun2 Hnames2) as Hbuilt2.
  destruct (count_passed_built results1 Hbuilt1) as (passed1 & Hcount1 & _ & Hall1).
  destruct (count_passed_built results2 Hbuilt2) as (passed2 & Hcount2 & _ & Hall2).
  eexists results1, results2, _. split; [done|]. split; [done|].
  unfold main_with. rewrite Hrun1, Hrun2. bind_step.
  rewrite Hcount1, Hcount2. bind_step.
  rewrite (print_details_built results1 Hbuilt1),
    (print_details_built results2 Hbuilt2).
  bind_step. split; [reflexivity|].
  rewrite andb_true_iff, !Nat.eqb_eq, Hall1, Hall2. done.
Qed.

(** X15. With every rule named, [main] returns a boolean, reading only
    keys the result dicts have; it returns [True], and the script exits
    with status 0, exactly when every result of both tables has [success]
    true; otherwise the exit status is 1. *)
Theorem main_succeeds_iff_all_pass df1 df2 rules1 rules2 :
  Forall has_name rules1 →
  Forall has_name rules2 →
  ∃ results1 results2 overall_success,
    run_expectations_manually pd df1 "test1" rules1 = Return results1
    ∧ run_expectations_manually pd df2 "test2" rules2 = Return results2
    ∧ main_with pd df1 df2 rules1 rules2 = Return overall_success
    ∧ (overall_success = true ↔ all_passed results1 ∧ all_passed results2)
    ∧ (exit_status overall_success = 0%Z ↔ all_passed results1 ∧ all_passed results2)
    ∧ (exit_status overall_success = 0%Z ∨ exit_status overall_success = 1%Z).
Proof.
  intros Hnames1 Hnames2.
  destruct (main_with_value df1 df2 rules1 rules2 Hnames1 Hnames2)
    as (results1 & results2 & b & Hrun1 & Hrun2 & Hmain & Hb).
  exists results1, results2, b. split_and!; try done.
  - rewrite <- Hb. destruct b; simpl; split; done.
  - destruct b; [by left | by right].
Qed.

Lemma raising_rule_not_all_passed df table_name rules results exp exp_name e :
  Forall has_name rules →
  run_expectations_manually pd df table_name rules = Return results →
  exp ∈ rules →
  name exp = Some exp_name →
  try_body pd df exp exp_name = Raise e →
  ¬ all_passed results.
Proof.
  intros Hnames Hrun Hin Hname Hraise Hall.
  destruct (run_named pd df table_name rules Hnames) as (results' & Hrun' & Hall2).
  assert (results' = results) as -> by congruence.
  apply list_elem_of_lookup in Hin as [i Hi].
  destruct (Forall2_lookup_l _ _ _ _ _ Hall2 Hi) as (r & Hr & n & Hn & ->).
  assert (n = exp_name) as -> by congruence.
  unfold all_passed in Hall. rewrite Forall_forall in Hall.
  specialize (Hall _ (list_elem_of_lookup_2 _ _ _ Hr)).
  unfold appended in Hall. by rewrite Hraise in Hall.
Qed.

(** X16. A rule whose body raises, in either table, is counted as failed:
    [main] then returns [False] and the script exits with status 1, however
    many other rules pass. *)
Theorem fault_makes_main_fail df1 df2 rules1 rules2 exp exp_name e :
  Forall has_name rules1 →
  Forall has_name rules2 →
  name exp = Some exp_name →
  (exp ∈ rules1 ∧ try_body pd df1 exp exp_name = Raise e)
  ∨ (exp ∈ rules2 ∧ try_body pd df2 exp exp_name = Raise e) →
  main_with pd df1 df2 rules1 rules2 = Return false
  ∧ exit_status false = 1%Z.
Proof.
  intros Hnames1 Hnames2 Hname Hfault.
  destruct (main_with_value df1 df2 rules1 rules2 Hnames1 Hnames2)
    as (results1 & results2 & b & Hrun1 & Hrun2 & Hmain & Hb).
  split; [|done]. rewrite Hmain. f_equal. apply not_true_is_false.
  rewrite Hb. intros [Hall1 Hall2]. destruct Hfault as [[Hin Hraise]|[Hin Hraise]].
  - by apply (raising_rule_not_all_passed df1 "test1" rules1 results1 exp exp_name e).
  - by apply (raising_rule_not_all_passed df2 "test2" rules2 results2 exp exp_name e).
Qed.

Lemma run_with_rule_inserted df table_name pre post exp exp_name :
  Forall has_name (pre ++ exp :: post) →
  name exp = Some exp_name →
  ∃ before after,
    run_expectations_manually pd df table_name (pre ++ exp :: post)
    = Return (before ++ appended pd df exp exp_name :: after)
    ∧ run_expectations_manually pd df table_name (pre ++ post)
      = Return (before ++ after).
Proof.
  intros Hnames Hname.
  apply Forall_app in Hnames as [Hpre Hrest].
  apply Forall_cons in Hrest as [_ Hpost].
  destruct (run_named pd df table_name pre Hpre) as (before & Hbefore & _).
  destruct (run_named pd df table_name post Hpost) as (after & Hafter & _).
  exists before, after. unfold run_expectations_manually in *.
  rewrite !run_loop_app, Hbefore. bind_step. split.
  - cbn [run_loop]. rewrite Hname. cbn [getitem_field]. bind_step.
    rewrite run_rule_appended, run_loop_accumulates, Hafter. bind_step.
    by rewrite <- app_assoc.
  - rewrite run_loop_accumulates, Hafter. by bind_step.
Qed.

Lemma all_passed_without_skipped before after exp_name :
  all_passed (before ++ not_implemented exp_name :: after)
  ↔ all_passed (before ++ after).
Proof.
  unfold all_passed. rewrite !Forall_app, Forall_cons.
  unfold not_implemented. rewrite mk_result_success.
  split; [by intros [? [_ ?]] | by intros [? ?]].
Qed.

Lemma same_truth (b b' : bool) (P : Prop) :
  (b = true ↔ P) → (b' = true ↔ P) → b = b'.
Proof. intros Hb Hb'. apply eq_true_iff_eq. by rewrite Hb, Hb'. Qed.

(** X17. A rule of an unknown kind counts as passed: with it or without
    it in the list of either table, [main] returns the same value. *)
Theorem unknown_rule_leaves_main_unchanged df1 df2 pre post others exp exp_name :
  Forall has_name (pre ++ exp :: post) →
  Forall has_name others →
  name exp = Some exp_name →
  exp_name ∉ recognized →
  main_with pd df1 df2 (pre ++ exp :: post) others
  = main_with pd df1 df2 (pre ++ post) others
  ∧ main_with pd df2 df1 others (pre ++ exp :: post)
    = main_with pd df2 df1 others (pre ++ post).
Proof.
  intros Hnames Hothers Hname Hnot.
  assert (Forall has_name (pre ++ post)) as Hnames'.
  { apply Forall_app in Hnames as [? [_ ?]%Forall_cons]. by apply Forall_app. }
  assert (∀ df table_name, ∃ before after,
             run_expectations_manually pd df table_name (pre ++ exp :: post)
             = Return (before ++ not_implemented exp_name :: after)
             ∧ run_expectations_manually pd df table_name (pre ++ post)
               = Return (before ++ after)) as Hinsert.
  { intros df table_name.
    destruct (run_with_rule_inserted df table_name pre post exp exp_name Hnames Hname)
      as (before & after & Hwith & Hwithout).
    exists before, after. split; [|done]. rewrite Hwith. do 3 f_equal.
    unfold appended. by rewrite (try_body_unrecognized pd df exp exp_name Hnot). }
  split.
  - destruct (main_with_value df1 df2 _ others Hnames Hothers)
      as (r1 & r2 & b & Hrun1 & Hrun2 & -> & Hb).
    destruct (main_with_value df1 df2 _ others Hnames' Hothers)
      as (r1' & r2' & b' & Hrun1' & Hrun2' & -> & Hb').
    destruct (Hinsert df1 "test1") as (before & after & Hwith & Hwithout).
    assert (r1 = before ++ not_implemented exp_name :: after) as -> by congruence.
    assert (r1' = before ++ after) as -> by congruence.
    assert (r2' = r2) as -> by congruence.
    rewrite all_passed_without_skipped in Hb. f_equal.
    by apply (same_truth _ _ _ Hb Hb').
  - destruct (main_with_value df2 df1 others _ Hothers Hnames)
      as (r1 & r2 & b & Hrun1 & Hrun2 & -> & Hb).
    destruct (main_with_value df2 df1 others _ Hothers Hnames')
      as (r1' & r2' & b' & Hrun1' & Hrun2' & -> & Hb').
    destruct (Hinsert df1 "test2") as (before & after & Hwith & Hwithout).
    assert (r2 = before ++ not_implemented exp_name :: after) as -> by congruence.
    assert (r2' = before ++ after) as -> by congruence.
    assert (r1' = r1) as -> by congruence.
    rewrite all_passed_without_skipped in Hb. f_equal.
    by apply (same_truth _ _ _ Hb Hb').
Qed.

End Summary.

(** * The properties on concrete inputs *)

Section Examples.
Import Sample Cases.

(** The two runs of [main]: seven results each, all passing. *)
Example test1_all_pass :
  (results ← run_expectations_manually ops test1_df "test1" test1_expectations;
   Return (passed results, length results)) = Return (7, 7).
Proof. vm_compute. reflexivity. Qed.

Example test2_all_pass :
  (results ← run_expectations_manually ops test2_df "test2" test2_expectations;
   Return (passed results, length results)) = Return (7, 7).
Proof. vm_compute. reflexivity. Qed.

(** C2, as the specification words it, fails: the result of a rule whose
    column is absent has [success] false but no 'error' key. *)
Lemma error_key_absent_counterexample :
  ∃ r r',
    run_expectations_manually ops test1_df "test1" ghost_rules = Return [r; r']
    ∧ try_body ops test1_df (column_rule "expect_column_values_to_not_be_null" "ghost")
        "expect_column_values_to_not_be_null" = Raise (KeyError "ghost")
    ∧ r !! "success" = Some (VBool false)
    ∧ r !! "error" = None.
Proof.
  exists (error_result "expect_column_values_to_not_be_null" (KeyError "ghost")),
    (mk_result "expect_table_row_count_to_be_between" true (VInt 6)
       (VFmt [Lit "Row count "; Fmt (PInt 6); Lit " should be between ";
              Fmt (PInt 1); Lit " and "; Fmt (PInt 1000000)])).
  split; [vm_compute; reflexivity|]. split; [vm_compute; reflexivity|].
  split; reflexivity.
Qed.

(** C7, as the specification words it, fails: every value that is not
    missing contains "@", and the rule fails. *)
Lemma regex_missing_value_counterexample :
  (∀ v, Some v ∈ [Some "a@x.com"; None] → contains "@" v = true)
  ∧ ∃ r,
      run_expectations_manually ops contacts_df "contacts" contacts_rules
      = Return [r]
      ∧ r !! "success" = Some (VBool false).
Proof.
  split.
  - intros v Hv. repeat (apply elem_of_cons in Hv as [Hv|Hv]; [by simplify_eq|]).
    by apply elem_of_nil in Hv.
  - exists (mk_result "expect_column_values_to_match_regex" false
              (VStr "1 valid emails out of 2")
              (VStr "Column email should match email pattern")).
    split; [vm_compute; reflexivity | reflexivity].
Qed.

(** C8, as the specification words it, fails: with the missing value
    counted as a value, the column has as many distinct values as rows,
    and the rule fails. *)
Lemma unique_missing_value_counterexample :
  distinct_count_with_missing readings = series_len readings
  ∧ ∃ r,
      run_expectations_manually ops readings_df "readings" readings_rules
      = Return [r]
      ∧ r !! "success" = Some (VBool false).
Proof.
  split; [vm_compute; reflexivity|].
  exists (mk_result "expect_column_values_to_be_unique" false
            (VStr "1 unique out of 2")
            (VStr "Column reading should have all unique values")).
  split; [vm_compute; reflexivity | reflexivity].
Qed.

(** C9, as the specification words it, fails: "StringType" is not a
    temporal type, and on a column the table does not have the rule fails
    instead of passing. *)
Lemma type_absent_column_counterexample :
  ¬ temporal_in_any_case "StringType"
  ∧ ("ghost" ∉ columns test1_df)
  ∧ ∃ r,
      run_expectations_manually ops test1_df "test1" [ghost_as_string] = Return [r]
      ∧ r !! "success" = Some (VBool false).
Proof.
  split; [by apply temporal_type_no_case|]. split.
  - unfold columns. simpl. intros Hin.
    repeat (apply elem_of_cons in Hin as [Hin|Hin]; [discriminate|]).
    by apply elem_of_nil in Hin.
  - exists (error_result "expect_column_values_to_be_of_type" (KeyError "ghost")).
    split; [vm_compute; reflexivity | reflexivity].
Qed.

(** ** The theorems at the sample inputs *)

Lemma test1_has_names : Forall has_name test1_expectations.
Proof. repeat constructor; by eexists. Defined.

Lemma one_result_per_rule_in_order_witness :
  NoDup (columns test1_df)
  ∧ Forall has_name test1_expectations
  ∧ ∃ results,
      run_expectations_manually ops test1_df "test1" test1_expectations
      = Return results
      ∧ length results = 7.
Proof.
  split; [exact (labels_distinct test1_df)|].
  split; [exact test1_has_names|].
  destruct (one_result_per_rule_in_order ops test1_df "test1" test1_expectations
              (labels_distinct test1_df) test1_has_names)
    as (results & Hrun & Hlen & _).
  exists results. split; [exact Hrun | exact Hlen].
Defined.

Lemma raising_rule_yields_error_result_witness :
  ∃ results r,
    run_expectations_manually ops test1_df "test1" ghost_rules = Return results
    ∧ results !! 0 = Some r
    ∧ r !! "success" = Some (VBool false)
    ∧ r !! "observed_value" = Some (VFmt [Lit "Error: "; FmtExn (KeyError "ghost")])
    ∧ ∃ r', results !! 1 = Some r'.
Proof.
  assert (Forall has_name ghost_rules) as Hnames
    by (repeat constructor; by eexists).
  destruct (raising_rule_yields_error_result ops test1_df "test1" ghost_rules 0
              (column_rule "expect_column_values_to_not_be_null" "ghost")
              "expect_column_values_to_not_be_null" (KeyError "ghost")
              Hnames eq_refl eq_refl eq_refl)
    as (results & r & Hrun & Hr & _ & Hsuccess & Hobserved & _ & _ & Hlater).
  exists results, r. split_and!; try done.
  destruct (Hlater 1 _ (le_n 1) eq_refl) as (r' & Hr' & _). by exists r'.
Defined.

Lemma unrecognized_rule_is_skipped_witness :
  ∃ results r,
    run_expectations_manually ops test1_df "test1" foo_rules = Return results
    ∧ results !! 1 = Some r
    ∧ r !! "success" = Some (VBool true)
    ∧ r !! "observed_value" = Some (VStr "Skipped")
    ∧ r !! "details"
      = Some (VStr "Expectation expect_foo_bar not implemented in demo").
Proof.
  assert (Forall has_name foo_rules) as Hnames
    by (repeat constructor; by eexists).
  assert ("expect_foo_bar" ∉ recognized) as Hnot.
  { unfold recognized. rewrite !not_elem_of_cons. split_and!; try done.
    apply not_elem_of_nil. }
  destruct (unrecognized_rule_is_skipped ops test1_df "test1" foo_rules 1
              (column_rule "expect_foo_bar" "id") "expect_foo_bar"
              Hnames eq_refl eq_refl Hnot)
    as (results & r & Hrun & Hr & _ & Hsuccess & Hobserved & Hdetails).
  exists results, r. split_and!; done.
Defined.

Lemma well_formed_rules_never_raise_witness :
  Forall (λ exp, well_formed exp = true) ghost_rules
  ∧ ∃ results r,
      run_expectations_manually ops test1_df "test1" ghost_rules = Return results
      ∧ length results = 2
      ∧ results !! 0 = Some r
      ∧ r !! "success" = Some (VBool false)
      ∧ r !! "observed_value"
        = Some (VFmt [Lit "Error: "; FmtExn (KeyError "ghost")]).
Proof.
  assert (Forall (λ exp, well_formed exp = true) ghost_rules) as Hwf
    by (repeat constructor).
  split; [exact Hwf|].
  destruct (well_formed_rules_never_raise ops test1_df "test1" ghost_rules Hwf)
    as (results & Hrun & Hlen & Heach).
  destruct (Heach 0 _ eq_refl) as (n & r & Hname & Hr & _ & _ & _ & Hcaught).
  injection Hname as <-.
  destruct (Hcaught (KeyError "ghost") eq_refl) as (Hsuccess & Hobserved & _).
  exists results, r. split_and!; done.
Defined.

Lemma row_count_bounds_are_inclusive_witness :
  ∃ results r,
    run_expectations_manually ops test1_df "test1" test1_expectations
    = Return results
    ∧ results !! 0 = Some r
    ∧ r !! "observed_value" = Some (VInt 6)
    ∧ r !! "success" = Some (VBool true).
Proof.
  destruct (row_count_bounds_are_inclusive ops test1_df "test1" test1_expectations 0
              (table_rule "expect_table_row_count_to_be_between"
                 [("min_value", PInt 1); ("max_value", PInt 1000000)])
              1 1000000 test1_has_names eq_refl eq_refl eq_refl eq_refl)
    as (results & r & Hrun & Hr & Hobserved & Hsuccess & _).
  exists results, r. split_and!; done.
Defined.

Lemma columns_must_match_in_order_witness :
  ∃ results r,
    run_expectations_manually ops test1_df "test1" test1_expectations
    = Return results
    ∧ results !! 1 = Some r
    ∧ r !! "observed_value" = Some (VStrs ["id"; "name"; "email"; "created_date"])
    ∧ r !! "success" = Some (VBool true).
Proof.
  destruct (columns_must_match_in_order ops test1_df "test1" test1_expectations 1
              (table_rule "expect_table_columns_to_match_ordered_list"
                 [("column_list",
                   PList [PStr "id"; PStr "name"; PStr "email"; PStr "created_date"])])
              ["id"; "name"; "email"; "created_date"]
              test1_has_names eq_refl eq_refl eq_refl)
    as (results & r & Hrun & Hr & Hobserved & Hsuccess & _).
  exists results, r. split_and!; done.
Defined.

Lemma regex_rule_counts_missing_as_mismatch_witness :
  frame_ok test1_df
  ∧ ∃ results r,
      run_expectations_manually ops test1_df "test1" test1_expectations
      = Return results
      ∧ results !! 5 = Some r
      ∧ r !! "success" = Some (VBool true).
Proof.
  assert (frame_ok test1_df) as Hok by (repeat constructor).
  split; [exact Hok|].
  destruct (regex_rule_counts_missing_as_mismatch ops test1_df "test1"
              test1_expectations 5
              (column_rule_with "expect_column_values_to_match_regex" "email"
                 [("regex", PStr "email")])
              "email" "email" test1_has_names eq_refl eq_refl eq_refl eq_refl Hok)
    as (results & r & Hrun & Hr & Hemail & _).
  exists results, r. split_and!; try done.
  apply (Hemail eq_refl). eexists. split; [reflexivity|].
  repeat constructor; by eexists.
Defined.

Lemma unique_counts_present_values_witness :
  ∃ results r,
    run_expectations_manually ops test1_df "test1" test1_expectations
    = Return results
    ∧ results !! 3 = Some r
    ∧ r !! "observed_value" = Some (VStr "6 unique out of 6")
    ∧ r !! "success" = Some (VBool true).
Proof.
  destruct (unique_counts_present_values ops test1_df "test1" test1_expectations 3
              (column_rule "expect_column_values_to_be_unique" "id")
              "id" (Int64 [1; 2; 3; 4; 5; 6]%Z)
              test1_has_names eq_refl eq_refl eq_refl eq_refl)
    as (results & r & Hrun & Hr & Hobserved & Hsuccess & _).
  exists results, r. split_and!; done.
Defined.

Lemma type_rule_checks_temporal_only_witness :
  ∃ results r,
    run_expectations_manually ops test1_df "test1" [id_as_timestamp]
    = Return results
    ∧ results !! 0 = Some r
    ∧ r !! "observed_value" = Some (VStr "int64")
    ∧ r !! "success" = Some (VBool false).
Proof.
  assert (Forall has_name [id_as_timestamp]) as Hnames
    by (repeat constructor; by eexists).
  destruct (type_rule_checks_temporal_only ops test1_df "test1" [id_as_timestamp] 0
              id_as_timestamp "id" "TimestampType"
              Hnames eq_refl eq_refl eq_refl eq_refl)
    as (results & r & Hrun & Hr & Hpresent & _).
  destruct (Hpresent (Int64 [1; 2; 3; 4; 5; 6]%Z) eq_refl)
    as (Hobserved & Htemporal & _).
  assert (temporal_in_any_case "TimestampType") as Hasked.
  { left. exists "", "Timestamp", "Type". split; [done|].
    constructor; [right; split; [simpl; lia | reflexivity]|].
    repeat (constructor; [by left|]). constructor. }
  destruct (Htemporal Hasked) as [_ Hother].
  exists results, r. split_and!; try done. by apply Hother.
Defined.

Lemma missing_name_aborts_batch_witness :
  run_expectations_manually ops test1_df "test1" nameless_rules
  = Raise (KeyError "name").
Proof.
  apply missing_name_aborts_batch.
  exists {| name := None; column := Some "id"; parameters := None |}.
  split; [|reflexivity]. apply list_elem_of_further, list_elem_of_here.
Defined.

End Examples.

(** ** The further properties at the sample inputs *)

Section MoreExamples.
Import Sample Cases.

(** [main] on its own data: every expectation passes. *)
Example main_returns_true : main = Return true ∧ exit_status true = 0%Z.
Proof. split; [vm_compute; reflexivity | reflexivity]. Qed.

Lemma test2_has_names : Forall has_name test2_expectations.
Proof. repeat constructor; by eexists. Defined.

Lemma single_has_name n c ps :
  Forall has_name [ {| name := Some n; column := c; parameters := ps |} ].
Proof. repeat constructor; by eexists. Defined.

Lemma results_have_four_keys_witness :
  ∃ results,
    run_expectations_manually ops test1_df "test1" ghost_rules = Return results
    ∧ Forall (λ r : Result, dom r = result_keys) results.
Proof.
  assert (Forall has_name ghost_rules) as Hnames
    by (repeat constructor; by eexists).
  exact (results_have_four_keys ops test1_df "test1" ghost_rules
           (labels_distinct test1_df) Hnames).
Defined.

Lemma column_key_missing_is_reported_witness :
  ∃ results,
    run_expectations_manually ops test1_df "test1" [unique_without_column]
    = Return results
    ∧ results !! 0
      = Some (error_result "expect_column_values_to_be_unique" (KeyError "column")).
Proof.
  assert ("expect_column_values_to_be_unique" ∈ column_scoped) as Hkind
    by (unfold column_scoped; apply list_elem_of_further, list_elem_of_here).
  destruct (column_key_missing_is_reported ops test1_df "test1"
              [unique_without_column] 0 unique_without_column
              "expect_column_values_to_be_unique"
              (single_has_name _ _ _) eq_refl eq_refl Hkind eq_refl)
    as (results & Hrun & Hr & _).
  by exists results.
Defined.

Lemma parameters_missing_is_reported_witness :
  ∃ results,
    run_expectations_manually ops test1_df "test1" [row_count_without_parameters]
    = Return results
    ∧ results !! 0
      = Some (error_result "expect_table_row_count_to_be_between"
                (KeyError "parameters")).
Proof.
  assert ("expect_table_row_count_to_be_between" ∈ column_scoped
          → is_Some (column row_count_without_parameters)) as Hcolumn.
  { unfold column_scoped. intros Hin.
    repeat (apply elem_of_cons in Hin as [Hin|Hin]; [discriminate|]).
    by apply elem_of_nil in Hin. }
  destruct (parameters_missing_is_reported ops test1_df "test1"
              [row_count_without_parameters] 0 row_count_without_parameters
              "expect_table_row_count_to_be_between" "min_value"
              (single_has_name _ _ _) eq_refl eq_refl eq_refl Hcolumn eq_refl)
    as (results & Hrun & Hr & _).
  by exists results.
Defined.

Lemma parameter_key_missing_is_reported_witness :
  ∃ results,
    run_expectations_manually ops test1_df "test1" [row_count_without_min]
    = Return results
    ∧ results !! 0
      = Some (error_result "expect_table_row_count_to_be_between"
                (KeyError "min_value")).
Proof.
  assert ("expect_table_row_count_to_be_between" ∈ column_scoped
          → is_Some (column row_count_without_min)) as Hcolumn.
  { unfold column_scoped. intros Hin.
    repeat (apply elem_of_cons in Hin as [Hin|Hin]; [discriminate|]).
    by apply elem_of_nil in Hin. }
  destruct (parameter_key_missing_is_reported ops test1_df "test1"
              [row_count_without_min] 0 row_count_without_min
              "expect_table_row_count_to_be_between" "min_value" _
              (single_has_name _ _ _) eq_refl eq_refl eq_refl Hcolumn eq_refl)
    as (results & Hrun & Hkey & _).
  exists results. split; [exact Hrun|]. by apply (Hkey _ eq_refl).
Defined.

Lemma absent_column_is_reported_witness :
  ∃ results,
    run_expectations_manually ops test1_df "test1" ghost_rules = Return results
    ∧ results !! 0
      = Some (error_result "expect_column_values_to_not_be_null" (KeyError "ghost")).
Proof.
  assert (Forall has_name ghost_rules) as Hnames
    by (repeat constructor; by eexists).
  assert ("ghost" ∉ columns test1_df) as Habsent.
  { unfold columns. simpl. intros Hin.
    repeat (apply elem_of_cons in Hin as [Hin|Hin]; [discriminate|]).
    by apply elem_of_nil in Hin. }
  destruct (absent_column_is_reported ops test1_df "test1" ghost_rules 0
              (column_rule "expect_column_values_to_not_be_null" "ghost")
              "expect_column_values_to_not_be_null" "ghost"
              Hnames eq_refl eq_refl eq_refl Habsent I)
    as (results & Hrun & Hr & _).
  by exists results.
Defined.

Lemma pattern_not_a_string_is_reported_witness :
  ∃ results,
    run_expectations_manually ops test1_df "test1" [regex_with_number]
    = Return results
    ∧ results !! 0
      = Some (error_result "expect_column_values_to_match_regex" AttributeError).
Proof.
  destruct (pattern_not_a_string_is_reported ops test1_df "test1"
              [regex_with_number] 0 regex_with_number
              "expect_column_values_to_match_regex" "regex" "email" (PInt 7)
              (single_has_name _ _ _) eq_refl eq_refl
              (or_introl (conj eq_refl eq_refl)) eq_refl eq_refl
              (λ s H, eq_ind (PInt 7) (λ v, match v with PInt _ => True | _ => False end)
                        I (PStr s) H))
    as (results & Hrun & Hr & _).
  by exists results.
Defined.

Lemma not_null_counts_missing_cells_witness :
  ∃ results r,
    run_expectations_manually ops test1_df "test1" test1_expectations
    = Return results
    ∧ results !! 2 = Some r
    ∧ r !! "observed_value" = Some (VStr "0 nulls in id")
    ∧ r !! "success" = Some (VBool true).
Proof.
  destruct (not_null_counts_missing_cells ops test1_df "test1" test1_expectations 2
              (column_rule "expect_column_values_to_not_be_null" "id")
              "id" (Int64 [1; 2; 3; 4; 5; 6]%Z)
              test1_has_names eq_refl eq_refl eq_refl eq_refl)
    as (results & r & Hrun & Hr & Hobserved & _ & Hint).
  exists results, r. split_and!; try done. apply Hint. left. by eexists.
Defined.

Lemma row_count_lower_bound_short_circuits_witness :
  ∃ results r,
    run_expectations_manually ops test1_df "test1" [row_count_seven_to_many]
    = Return results
    ∧ results !! 0 = Some r
    ∧ r !! "success" = Some (VBool false)
    ∧ r !! "observed_value" = Some (VInt 6).
Proof.
  assert (Z.of_nat (nrows test1_df) < 7)%Z as Hfew by (simpl; lia).
  destruct (row_count_lower_bound_short_circuits ops test1_df "test1"
              [row_count_seven_to_many] 0 row_count_seven_to_many 7 (PStr "many")
              (single_has_name _ _ _) eq_refl eq_refl eq_refl eq_refl Hfew)
    as (results & r & Hrun & Hr & Hsuccess & Hobserved).
  exists results, r. split_and!; done.
Defined.

Lemma row_count_bound_not_a_number_witness :
  ∃ results,
    run_expectations_manually ops test1_df "test1" [row_count_from_text]
    = Return results
    ∧ results !! 0
      = Some (error_result "expect_table_row_count_to_be_between" TypeError).
Proof.
  destruct (row_count_bound_not_a_number ops test1_df "test1"
              [row_count_from_text] 0 row_count_from_text (PStr "1") (PInt 10)
              (single_has_name _ _ _) eq_refl eq_refl eq_refl eq_refl
              (or_introl eq_refl))
    as (results & Hrun & Hr).
  by exists results.
Defined.

Lemma columns_rule_accepts_any_value_witness :
  ∃ results r,
    run_expectations_manually ops test1_df "test1" test1_expectations
    = Return results
    ∧ results !! 1 = Some r
    ∧ r !! "success" = Some (VBool true).
Proof.
  destruct (columns_rule_accepts_any_value ops test1_df "test1" test1_expectations 1
              (table_rule "expect_table_columns_to_match_ordered_list"
                 [("column_list",
                   PList [PStr "id"; PStr "name"; PStr "email"; PStr "created_date"])])
              _ test1_has_names eq_refl eq_refl eq_refl)
    as (results & r & b & Hrun & Hr & Hsuccess & Hb & _).
  exists results, r. split_and!; try done.
  rewrite Hsuccess. do 2 f_equal. by apply Hb.
Defined.

Lemma unique_pass_implies_not_null_pass_witness :
  ∃ results r r',
    run_expectations_manually ops test1_df "test1" test1_expectations
    = Return results
    ∧ results !! 3 = Some r
    ∧ results !! 2 = Some r'
    ∧ (r !! "success" = Some (VBool true) → r' !! "success" = Some (VBool true)).
Proof.
  exact (unique_pass_implies_not_null_pass ops test1_df "test1" test1_expectations
           3 2
           (column_rule "expect_column_values_to_be_unique" "id")
           (column_rule "expect_column_values_to_not_be_null" "id") "id"
           test1_has_names eq_refl eq_refl eq_refl eq_refl eq_refl eq_refl).
Defined.

Lemma test1_frame_ok : frame_ok test1_df.
Proof. repeat constructor. Defined.

Lemma email_pass_implies_not_null_pass_witness :
  frame_ok test1_df
  ∧ ∃ results r r',
      run_expectations_manually ops test1_df "test1" email_rules = Return results
      ∧ results !! 0 = Some r
      ∧ results !! 1 = Some r'
      ∧ (r !! "success" = Some (VBool true) → r' !! "success" = Some (VBool true)).
Proof.
  split; [exact test1_frame_ok|].
  assert (Forall has_name email_rules) as Hnames
    by (repeat constructor; by eexists).
  exact (email_pass_implies_not_null_pass ops test1_df "test1" email_rules 0 1
           (column_rule_with "expect_column_values_to_match_regex" "email"
              [("regex", PStr "email")])
           (column_rule "expect_column_values_to_not_be_null" "email")
           "email" "email"
           Hnames eq_refl eq_refl eq_refl eq_refl eq_refl eq_refl eq_refl eq_refl
           test1_frame_ok).
Defined.

Lemma between_checks_every_cell_witness :
  ∃ results r,
    run_expectations_manually ops test2_df "test2" test2_expectations
    = Return results
    ∧ results !! 5 = Some r
    ∧ r !! "success" = Some (VBool true).
Proof.
  destruct (between_checks_every_cell ops test2_df "test2" test2_expectations 5
              (column_rule_with "expect_column_values_to_be_between" "price"
                 [("min_value", PInt 0); ("max_value", PInt 10000)])
              "price"
              [price 129999; price 4999; price 2499; price 8999; price 7999;
               price 12999]
              (PInt 0) (PInt 10000) (float_of_Z 0) (float_of_Z 10000) _ _
              test2_has_names eq_refl eq_refl eq_refl eq_refl eq_refl
              eq_refl eq_refl eq_refl eq_refl eq_refl eq_refl eq_refl)
    as (results & r & b & Hrun & Hr & Hsuccess & Hb & _).
  exists results, r. split_and!; try done.
  rewrite Hsuccess. do 2 f_equal. apply Hb.
  repeat constructor.
Defined.

Lemma in_set_lists_distinct_cells_witness :
  ∃ results r observed,
    run_expectations_manually ops test2_df "test2" test2_expectations
    = Return results
    ∧ results !! 6 = Some r
    ∧ r !! "success" = Some (VBool true)
    ∧ r !! "observed_value" = Some (VCells observed)
    ∧ NoDup observed.
Proof.
  destruct (in_set_lists_distinct_cells ops test2_df "test2" test2_expectations 6
              (column_rule_with "expect_column_values_to_be_in_set" "category"
                 [("value_set", PList [PStr "Electronics"; PStr "Clothing";
                                       PStr "Books"; PStr "Home"; PStr "Sports"])])
              "category" _ _ _
              test2_has_names eq_refl eq_refl eq_refl eq_refl eq_refl eq_refl)
    as (results & r & observed & Hrun & Hr & Hsuccess & _ & Hobserved & Hnodup & _).
  exists results, r, observed. split_and!; done.
Defined.

Lemma main_succeeds_iff_all_pass_witness :
  ∃ results1 results2 overall_success,
    run_expectations_manually ops test1_df "test1" test1_expectations
    = Return results1
    ∧ run_expectations_manually ops test2_df "test2" test2_expectations
      = Return results2
    ∧ main = Return overall_success
    ∧ (overall_success = true ↔ all_passed results1 ∧ all_passed results2).
Proof.
  destruct (main_succeeds_iff_all_pass ops test1_df test2_df test1_expectations
              test2_expectations test1_has_names test2_has_names)
    as (results1 & results2 & b & Hrun1 & Hrun2 & Hmain & Hb & _).
  exists results1, results2, b. split_and!; done.
Defined.

Lemma fault_makes_main_fail_witness :
  main_with ops test1_df test2_df ghost_rules test2_expectations = Return false.
Proof.
  assert (Forall has_name ghost_rules) as Hnames
    by (repeat constructor; by eexists).
  apply (fault_makes_main_fail ops test1_df test2_df ghost_rules test2_expectations
           (column_rule "expect_column_values_to_not_be_null" "ghost")
           "expect_column_values_to_not_be_null" (KeyError "ghost")
           Hnames test2_has_names eq_refl).
  left. split; [apply list_elem_of_here | reflexivity].
Defined.

Lemma unknown_rule_leaves_main_unchanged_witness :
  main_with ops test1_df test2_df foo_rules test2_expectations
  = main_with ops test1_df test2_df
      [ column_rule "expect_column_values_to_not_be_null" "id";
        column_rule "expect_column_values_to_be_unique" "id" ]
      test2_expectations.
Proof.
  assert (Forall has_name foo_rules) as Hnames
    by (repeat constructor; by eexists).
  assert ("expect_foo_bar" ∉ recognized) as Hnot.
  { unfold recognized. rewrite !not_elem_of_cons. split_and!; try done.
    apply not_elem_of_nil. }
  apply (unknown_rule_leaves_main_unchanged ops test1_df test2_df
           [column_rule "expect_column_values_to_not_be_null" "id"]
           [column_rule "expect_column_values_to_be_unique" "id"]
           test2_expectations (column_rule "expect_foo_bar" "id") "expect_foo_bar"
           Hnames test2_has_names eq_refl Hnot).
Defined.

End MoreExamples.
